(** * Tutorial notebooks of past-astropy-workshops: source, lexical structure, checks

    The repository consists of two Jupyter notebooks.  Their code cells are kept
    here verbatim, one string per physical source line, a small Python tokenizer
    splits every cell into logical lines, and the properties stated about the
    notebooks are decided on those token streams.  The arithmetic the
    photometry notebook performs on library results is additionally embedded
    as functions on binary64 floats. *)

From Stdlib Require Import List String Ascii Bool Arith ZArith.
From Stdlib Require Import PrimFloat FloatOps FloatAxioms SpecFloat.
Import ListNotations.
Open Scope string_scope.
Open Scope list_scope.

Set Warnings "-inexact-float".

(** ** Notebook source *)

(** A code cell: the line of the [.ipynb] file on which its source starts, and
    its source lines (without the trailing newline). *)
Record cell : Type := code { cell_line : nat; source : list string }.

Definition notebook : Type := list cell.

(** The double-quote character, for the few source lines that contain it. *)
Definition dq : string := String "034"%char EmptyString.

(** Code cells of [pydata2017-astropy/3-reading-manipulating-data/Reading-data.ipynb],
    in notebook order (markdown cells carry no code and are left out). *)
Definition Reading_data : notebook := [
  code 23 [
    "# Imports we'll need throughout the tutorial:";
    "import astropy.units as u";
    "import numpy as np";
    "import matplotlib as mpl";
    "import matplotlib.pyplot as plt";
    "%matplotlib inline";
    EmptyString;
    "from astropy.table import Table, QTable";
    "from astropy.io import ascii, fits" ];
  code 86 [
    "tbl = Table()";
    "tbl['name'] = ['Graham Chapman', 'John Cleese', 'Terry Gilliam', ";
    "               'Eric Idle', 'Terry Jones', 'Michael Palin']" ];
  code 106 [
    "tbl['age'] = [np.nan, 78, 77, 74, 75, 74]";
    EmptyString;
    "# whereas, this would fail because it isn't the same length as the table:";
    "# tbl['age'] = [77, 77]" ];
  code 127 [
    "tbl" ];
  code 143 [
    "print(tbl)" ];
  code 159 [
    "tbl.colnames" ];
  code 168 [
    "tbl.dtype" ];
  code 184 [
    "tbl.show_in_notebook()" ];
  code 202 [
    "tbl['name']  # access entire column" ];
  code 211 [
    "tbl['name'][1] # row index 1 of column" ];
  code 220 [
    "tbl[1]  # row object for row index 1" ];
  code 229 [
    "tbl[1]['name']  # name column of row index 1" ];
  code 238 [
    "tbl[1:3]  # select a range of rows and return a new table" ];
  code 247 [
    "tbl[[1, 3]] # select specific row indices and return a new table" ];
  code 256 [
    "tbl['name', 'age'] # access a subset of columns" ];
  code 274 [
    "mask = (tbl['age'] < 75) & np.isfinite(tbl['age'])";
    "tbl[mask]  # Create a new table with just the rows where the mask is True" ];
  code 297 [
    "tbl['british'] = [True, True, False, True, True, True]" ];
  code 306 [
    "tbl.add_row(('Eddie Izzard', 55, True))  # add a new row to the end";
    "tbl" ];
  code 323 [
    "tbl['age'].format = '%.0f'";
    "tbl" ];
  code 344 [
    "np.array(tbl)" ];
  code 362 [
    "tbl['age'].data" ];
  code 378 [
    "np.array(tbl['age'])" ];
  code 398 [
    "!ls -l example_table_data*" ];
  code 407 [
    "tbl1 = Table.read('data/example_table_data.fits')";
    "tbl1" ];
  code 424 [
    "!head -n 8 data/example_table_data.csv" ];
  code 435 [
    "tbl2 = Table.read('data/example_table_data.csv')" ];
  code 451 [
    "!head -n 8 data/example_table_data.tex" ];
  code 462 [
    "tbl3 = Table.read('data/example_table_data.tex', format='ascii.aastex')" ];
  code 471 [
    "!head -n 8 data/example_table_data.txt" ];
  code 482 [
    "tbl4 = Table.read('data/example_table_data.txt', format='ascii', delimiter='|')" ];
  code 500 [
    "Table.read?" ];
  code 524 [
    "tbl1.write('test.fits', overwrite=True)" ];
  code 540 [
    "# VO table";
    "tbl1.write('test.vot', format='votable', overwrite=True)";
    "!head -n 30 test.vot" ];
  code 553 [
    "tbl1.write('test.dat', format='ascii')" ];
  code 564 [
    "tbl1.write('test.csv', format='ascii.csv')" ];
  code 575 [
    "tbl1.write('test.ipac', format='ascii')" ];
  code 593 [
    "tbl1.write('test.ecsv', format='ascii.ecsv')" ];
  code 611 [
    "from astroquery.sdss import SDSS";
    "import astropy.coordinates as coord" ];
  code 621 [
    "sc = coord.SkyCoord.from_name('HD 69497')";
    "sc" ];
  code 633 [
    "sdss_data = SDSS.query_region(sc, radius=0.5*u.deg, spectro=True)" ];
  code 642 [
    "sdss_data" ];
  code 653 [
    "sdss_data.write('SDSS_star.fits', overwrite=True)" ];
  code 675 [
    "tbl = Table()";
    "tbl['name'] = ['Graham Chapman', 'John Cleese', 'Terry Gilliam', ";
    "               'Eric Idle', 'Terry Jones', 'Michael Palin']";
    "tbl['age'] = [np.nan, 78, 77, 74, 75, 74] * u.year";
    "tbl" ];
  code 697 [
    "(tbl['age'] ** 2).unit" ];
  code 713 [
    "qtbl = QTable()";
    "qtbl['name'] = ['Graham Chapman', 'John Cleese', 'Terry Gilliam', ";
    "                'Eric Idle', 'Terry Jones', 'Michael Palin']";
    "qtbl['age'] = [np.nan, 78, 77, 74, 75, 74] * u.year";
    "qtbl" ];
  code 726 [
    "type(qtbl['age'])" ];
  code 735 [
    "(qtbl['age'] ** 2).unit" ];
  code 751 [
    "QTable(tbl)" ];
  code 760 [
    "Table(qtbl)" ];
  code 784 [
    "from astropy.table import vstack, hstack, join" ];
  code 802 [
    "tbl_a = Table()";
    ("tbl_a['cheese'] = [" ++ dq ++ "Red Leicester" ++ dq ++ ", " ++ dq ++ "Tilsit" ++ dq ++ ", " ++ dq ++ "Caerphilly" ++ dq ++ ", " ++ dq ++ "Bel Paese" ++ dq ++ ", " ++ dq ++ "Red Windsor" ++ dq ++ "]")%string;
    "tbl_a['in stock'] = ['no', 'no', 'no', 'no', 'no']";
    EmptyString;
    "tbl_b = Table()";
    ("tbl_b['cheese'] = [" ++ dq ++ "Stilton" ++ dq ++ ", " ++ dq ++ "Gruyère" ++ dq ++ ", " ++ dq ++ "Emmental" ++ dq ++ ", " ++ dq ++ "Norwegian Jarlsberg" ++ dq ++ ", " ++ dq ++ "Liptauer" ++ dq ++ "]")%string;
    "tbl_b['in stock'] = ['no', 'no', 'no', 'no', 'no']" ];
  code 817 [
    "tbl_a.colnames, tbl_b.colnames" ];
  code 826 [
    "cheese = vstack((tbl_a, tbl_b))";
    "cheese" ];
  code 847 [
    "tbl_a = Table()";
    "tbl_a['name'] = ['Arthur',";
    "                 'Lancelot',";
    "                 'Galahad',";
    "                 'Robin']";
    EmptyString;
    "tbl_b = Table()";
    "tbl_b['title'] = ['King of the Britons',";
    "                  'the Brave',";
    "                  'the Pure',";
    "                  'Not-Quite-So-Brave-as-Sir-Lancelot']" ];
  code 866 [
    "len(tbl_a), len(tbl_b)" ];
  code 875 [
    "knights = hstack((tbl_a, tbl_b))";
    "knights" ];
  code 896 [
    "from astropy.time import Time" ];
  code 905 [
    "tbl_a = Table()";
    "tbl_a['name'] = ['Arcturus', 'Rigel', 'Betelgeuse']";
    "tbl_a['ra'] = [213.913315, 78.6344670, 88.7929389] * u.deg";
    "tbl_a['dec'] = [19.1782489, -8.2016383, 7.4070639] * u.deg";
    EmptyString;
    "tbl_b = Table()";
    "tbl_b['name'] = np.array([], dtype='S10')";
    "tbl_b['time'] = [] * u.hour";
    "tbl_b['mag'] = [] ";
    EmptyString;
    "tbl_b.add_row(['Arcturus', 15.2523*u.hour, -0.043])";
    "tbl_b.add_row(['Arcturus', 16.955*u.hour, -0.041])";
    "tbl_b.add_row(['Arcturus', 18.011*u.hour, -0.044])";
    "tbl_b.add_row(['Rigel', 20.011*u.hour, 0.12])";
    "tbl_b.add_row(['Betelgeuse', 22.334*u.hour, 0.421])";
    "tbl_b.add_row(['Betelgeuse', 23.930*u.hour, 0.424])" ];
  code 929 [
    "bright_stars = join(tbl_a, tbl_b, keys='name')";
    "bright_stars" ];
  code 956 [
    "# stars = ...";
    "# visits = ...";
    EmptyString;
    "stars = Table.read('data/apogee-allStar.fits')";
    "visits = Table.read('data/apogee-allVisit.fits')" ];
  code 976 [
    "print(stars.colnames)";
    "print(visits.colnames)" ];
  code 1017 [
    "stars.show_in_notebook()" ];
  code 1038 [];
  code 1054 [];
  code 1070 [];
  code 1088 [];
  code 1104 [];
  code 1113 []
].

(** Code cells of the photutils notebook ([unnamed/part_000]), in notebook order. *)
Definition part_000 : notebook := [
  code 69 [
    "# initial imports";
    "import numpy as np";
    "import matplotlib.pyplot as plt";
    EmptyString;
    "# change some default plotting parameters";
    "import matplotlib as mpl";
    "mpl.rcParams['image.origin'] = 'lower'";
    "mpl.rcParams['image.interpolation'] = 'nearest'";
    "mpl.rcParams['image.cmap'] = 'viridis'";
    EmptyString;
    "# Run the %matplotlib magic command to enable inline plotting";
    "# in the current notebook.  Choose one of these:";
    "%matplotlib inline";
    "# %matplotlib notebook" ];
  code 113 [
    "from astropy.io import fits";
    "sci_fn = 'data/xdf_hst_wfc3ir_60mas_f160w_sci.fits'";
    "rms_fn = 'data/xdf_hst_wfc3ir_60mas_f160w_rms.fits'";
    "sci_hdulist = fits.open(sci_fn)";
    "rms_hdulist = fits.open(rms_fn)";
    EmptyString;
    "sci_hdulist[0].header['BUNIT'] = 'electron/s'" ];
  code 137 [
    "sci_hdulist.info()" ];
  code 157 [
    "data = sci_hdulist[0].data.astype(np.float)";
    "error = rms_hdulist[0].data.astype(np.float)" ];
  code 178 [
    "from astropy.wcs import WCS";
    EmptyString;
    "hdr = sci_hdulist[0].header";
    "wcs = WCS(hdr)" ];
  code 201 [
    "from astropy.visualization import simple_norm";
    "norm = simple_norm(data, 'sqrt', percent=99.5)";
    "plt.imshow(data, norm=norm)" ];
  code 300 [
    "from photutils import CircularAperture";
    EmptyString;
    "position = (90.73, 59.43)  # (x, y) pixel position";
    "radius = 5.  # pixels";
    "aperture = CircularAperture(position, r=radius)" ];
  code 313 [
    "aperture" ];
  code 322 [
    "print(aperture)" ];
  code 338 [
    "plt.imshow(data, norm=norm)";
    "aperture.plot(color='red', lw=2)" ];
  code 363 [
    "from photutils import aperture_photometry";
    EmptyString;
    "phot = aperture_photometry(data, aperture)";
    "phot" ];
  code 384 [
    "phot.meta" ];
  code 393 [
    "phot.meta['version']" ];
  code 413 [
    "phot = aperture_photometry(data, aperture, method='center')";
    "phot" ];
  code 436 [
    "phot = aperture_photometry(data, aperture, method='subpixel', subpixels=5)";
    "phot" ];
  code 462 [
    "phot = aperture_photometry(data, aperture, error=error)";
    "phot" ];
  code 489 [
    "# this time include the Poisson error of the source";
    "from photutils.utils import calc_total_error";
    EmptyString;
    "# our data array is in units of e-/s";
    ("# so the " ++ dq ++ "effective gain" ++ dq ++ " should be the exposure time")%string;
    "eff_gain = hdr['TEXPTIME']";
    "tot_error = calc_total_error(data, error, eff_gain)";
    EmptyString;
    "phot = aperture_photometry(data, aperture, error=tot_error)";
    "phot" ];
  code 532 [
    "# input the data units";
    "import astropy.units as u";
    EmptyString;
    "unit = u.electron / u.s";
    "phot = aperture_photometry(data, aperture, error=tot_error, unit=unit)";
    "phot" ];
  code 553 [
    "phot = aperture_photometry(data * unit, aperture, error=tot_error * u.adu)";
    "phot" ];
  code 570 [
    "phot = aperture_photometry(data * unit, aperture, error=tot_error * u.adu, unit=u.photon)";
    "phot" ];
  code 602 [
    "positions = [(90.73, 59.43), (73.63, 139.41), (43.62, 61.63)]";
    "radius = 5.";
    "apertures = CircularAperture(positions, r=radius)" ];
  code 620 [
    "plt.imshow(data, norm=norm)";
    "apertures.plot(color='red', lw=2)" ];
  code 641 [
    "phot = aperture_photometry(data, apertures, error=tot_error, unit=unit)";
    "phot" ];
  code 669 [
    "# create a bad pixel in the first source";
    "data2 = data.copy()";
    "x = 59";
    "y = 91";
    "data2[y, x] = 100.  # bad value";
    EmptyString;
    "aperture_photometry(data2, apertures, error=tot_error)" ];
  code 697 [
    "mask = np.zeros_like(data2, dtype=bool)";
    "mask[y, x] = True";
    EmptyString;
    "aperture_photometry(data2, apertures, error=tot_error, mask=mask)" ];
  code 732 [
    "snr = phot['aperture_sum'] / phot['aperture_sum_err']   # units will cancel";
    EmptyString;
    "phot['snr'] = snr";
    "phot" ];
  code 755 [
    "f160w_zpt = 25.9463";
    EmptyString;
    "# NOTE that the log10() function can be applied only to dimensionless quantities";
    "# so we use the value() method to get the number value of the aperture sum";
    "abmag = -2.5 * np.log10(phot['aperture_sum'].value) + f160w_zpt";
    EmptyString;
    "phot['abmag'] = abmag";
    "phot" ];
  code 782 [
    "from astropy.wcs.utils import pixel_to_skycoord";
    EmptyString;
    "# convert pixel positions to sky coordinates";
    "x, y = np.transpose(positions)";
    "coord = pixel_to_skycoord(x, y, wcs)";
    EmptyString;
    "# we can add the astropy SkyCoord object directly to the table";
    "phot['sky coord'] = coord";
    "phot" ];
  code 810 [
    "phot['ra_icrs'] = coord.icrs.ra";
    "phot['dec_icrs'] = coord.icrs.dec";
    "phot" ];
  code 828 [
    "phot.write('my_photometry.txt', format='ascii.ecsv')" ];
  code 837 [
    "# view the table on disk";
    "!cat my_photometry.txt" ];
  code 854 [
    "from astropy.table import QTable";
    "tbl = QTable.read('my_photometry.txt', format='ascii.ecsv')";
    "tbl" ];
  code 865 [
    "tbl.meta" ];
  code 874 [
    "tbl['aperture_sum']   # Quantity array" ];
  code 883 [
    "tbl['sky coord']    # SkyCoord array" ];
  code 917 [
    "positions = [(90.73, 59.43), (73.63, 139.41), (43.62, 61.63)]";
    "x, y = np.transpose(positions)";
    "coord = pixel_to_skycoord(x, y, wcs)";
    "coord" ];
  code 942 [
    "from photutils import SkyCircularAperture";
    EmptyString;
    "radius = 5. * u.pix";
    "sky_apers = SkyCircularAperture(coord, r=radius)";
    "sky_apers.r" ];
  code 955 [
    "radius = 0.5 * u.arcsec";
    "sky_apers = SkyCircularAperture(coord, r=radius)";
    "sky_apers.r" ];
  code 977 [
    "# via the wcs keyword";
    "phot = aperture_photometry(data, sky_apers, wcs=wcs)";
    "phot" ];
  code 993 [
    ("# or via a FITS hdu (i.e. header and data) as the input " ++ dq ++ "data" ++ dq)%string;
    "phot = aperture_photometry(sci_hdulist[0], sky_apers)";
    "phot" ];
  code 1043 [
    "from photutils import CircularAnnulus";
    EmptyString;
    "positions = [(90.73, 59.43), (73.63, 139.41), (43.62, 61.63)]";
    EmptyString;
    "aper = CircularAperture(positions, r=3)";
    "bkg_aper = CircularAnnulus(positions, r_in=10., r_out=15.)";
    "apers = [aper, bkg_aper]" ];
  code 1065 [
    "plt.imshow(data, norm=norm)";
    "aper.plot(color='white', lw=2)";
    "bkg_aper.plot(color='white', lw=2, hatch='//', alpha=0.5)" ];
  code 1092 [
    "phot = aperture_photometry(data, apers)";
    "phot.rename_column('aperture_sum_0', 'aperture_sum')";
    "phot.rename_column('aperture_sum_1', 'annulus_sum')";
    "phot" ];
  code 1113 [
    "phot['annulus_mean'] = phot['annulus_sum'] / bkg_aper.area()";
    "phot" ];
  code 1130 [
    "phot['aperture_bkg'] = phot['annulus_mean'] * aper.area()";
    "phot" ];
  code 1147 [
    " # subtract the background";
    "flux_bkgsub = phot['aperture_sum'] - phot['aperture_bkg']";
    EmptyString;
    "phot['aperture_sum_bkgsub'] = flux_bkgsub";
    "phot" ];
  code 1182 [
    "bkg = 0.  # background level in this image";
    "nsigma = 2.";
    "threshold = bkg + (nsigma * error)  # this should be background-only error" ];
  code 1208 [
    "from photutils import detect_sources";
    EmptyString;
    "npixels = 5";
    "segm = detect_sources(data, threshold, npixels)";
    EmptyString;
    "print('Found {0} sources'.format(segm.nlabels))" ];
  code 1229 [
    "from photutils.utils import random_cmap";
    EmptyString;
    "fig, (ax1, ax2) = plt.subplots(1, 2, figsize=(10, 8))";
    "ax1.imshow(data, norm=norm)";
    "lbl1 = ax1.set_title('Data')";
    "ax2.imshow(segm, cmap=segm.cmap())";
    "lbl2 = ax2.set_title('Segmentation Image')" ];
  code 1257 [
    "from astropy.convolution import Gaussian2DKernel";
    "from astropy.stats import gaussian_fwhm_to_sigma";
    EmptyString;
    "sigma = 2.0 * gaussian_fwhm_to_sigma    # FWHM = 2 pixels";
    "kernel = Gaussian2DKernel(sigma, x_size=5, y_size=5)";
    "kernel.normalize()";
    EmptyString;
    "ssegm = detect_sources(data, threshold, npixels, filter_kernel=kernel)" ];
  code 1273 [
    "fig, (ax1, ax2) = plt.subplots(1, 2, figsize=(10, 8))";
    "ax1.imshow(segm, cmap=segm.cmap())";
    "lbl1 = ax1.set_title('Original Data')";
    "ax2.imshow(ssegm, cmap=ssegm.cmap())";
    "lbl2 = ax2.set_title('Smoothed Data')" ];
  code 1304 [
    "from photutils import deblend_sources";
    EmptyString;
    "segm2 = deblend_sources(data, ssegm, npixels, filter_kernel=kernel,";
    "                        contrast=0.001, nlevels=32)";
    EmptyString;
    "fig, (ax1, ax2, ax3) = plt.subplots(1, 3, figsize=(15, 8))";
    "ax1.imshow(data, norm=norm)";
    "ax1.set_title('Data')";
    "ax2.imshow(ssegm, cmap=ssegm.cmap())";
    "ax2.set_title('Original Segmentation Image')";
    "ax3.imshow(segm2, cmap=segm2.cmap())";
    "ax3.set_title('Deblended Segmentation Image')";
    EmptyString;
    "print('Found {0} sources'.format(segm2.max))" ]
].

Definition notebooks : list notebook := [Reading_data; part_000].

(** ** Tokens *)

(** Python's token classes, as far as straight-line cells need them.  Keywords
    are [NAME] tokens, as in Python's own tokenizer.  A line handed to IPython
    ([%magic] or [!shell]) is kept whole as a [MAGIC] token. *)
Inductive token : Type :=
| NAME (s : string)
| NUMBER (s : string)
| STRING (s : string)
| OP (s : string)
| MAGIC (s : string).

Definition token_eqb (a b : token) : bool :=
  match a, b with
  | NAME x, NAME y | NUMBER x, NUMBER y | STRING x, STRING y
  | OP x, OP y | MAGIC x, MAGIC y => String.eqb x y
  | _, _ => false
  end.

Definition mem (x : string) (l : list string) : bool :=
  existsb (String.eqb x) l.

Definition between (lo hi : nat) (c : ascii) : bool :=
  let n := nat_of_ascii c in Nat.leb lo n && Nat.leb n hi.

Definition is_digit (c : ascii) : bool := between 48 57 c.

Definition is_alpha (c : ascii) : bool :=
  between 65 90 c || between 97 122 c || Ascii.eqb c "_".

Definition is_space (c : ascii) : bool :=
  Ascii.eqb c " " || Ascii.eqb c "009".

Definition is_quote (c : ascii) : bool :=
  Ascii.eqb c "'" || Ascii.eqb c "034".

Definition str (rev_acc : list ascii) : string :=
  string_of_list_ascii (rev rev_acc).

Definition two (a b : ascii) : string := String a (String b EmptyString).

(** Operators of two characters. *)
Definition two_char_ops : list string :=
  ["**"; "//"; "=="; "!="; "<="; ">="; "<<"; ">>";
   "+="; "-="; "*="; "/="; "%="; "&="; "|="; "^="; "->"; ":="].

(** The tokenizer is a state machine over the characters of a cell, fed one
    physical line at a time.  A string in triple quotes runs over line ends;
    every other token ends with its line. *)
Inductive mode : Type :=
| Start
| InName (acc : list ascii)
| InNumber (acc : list ascii)
| InString (q : ascii) (acc : list ascii)
| InEscape (q : ascii) (acc : list ascii)
| InOp (c : ascii)
| Opened (q : ascii)                          (* two quotes: an empty string so far *)
| InTriple (q : ascii) (n : nat) (acc : list ascii)   (* [n] closing quotes seen *)
| InTripleEscape (q : ascii) (acc : list ascii).

Definition flush (m : mode) : list token :=
  match m with
  | Start => []
  | InName acc => [NAME (str acc)]
  | InNumber acc => [NUMBER (str acc)]
  | InString _ acc | InEscape _ acc => [STRING (str acc)]
  | InOp c => [OP (String c EmptyString)]
  | Opened _ => [STRING EmptyString]
  | InTriple q n acc => [STRING (str (repeat q n ++ acc))]
  | InTripleEscape _ acc => [STRING (str acc)]
  end.

(** Does [c] extend the token under construction? *)
Definition extends (m : mode) (c : ascii) : option mode :=
  match m with
  | InName acc =>
      if is_alpha c || is_digit c then Some (InName (c :: acc)) else None
  | InNumber acc =>
      if is_alpha c || is_digit c || Ascii.eqb c "." then Some (InNumber (c :: acc))
      else None
  | _ => None
  end.

(** Tokens in front of what the rest of the line gives. *)
Definition emit (ts : list token) (r : list token * mode) : list token * mode :=
  (ts ++ fst r, snd r).

(** The tokens of the characters [cs] read in mode [m], and the mode at
    their end. *)
Fixpoint lex (m : mode) (cs : list ascii) : list token * mode :=
  match cs with
  | [] => ([], m)
  | c :: rest =>
      match m with
      | InString q acc =>
          if Ascii.eqb c q then
            match acc with
            | [] => lex (Opened q) rest
            | _ => emit [STRING (str acc)] (lex Start rest)
            end
          else if Ascii.eqb c "\" then lex (InEscape q (c :: acc)) rest
          else lex (InString q (c :: acc)) rest
      | InEscape q acc => lex (InString q (c :: acc)) rest
      | InTriple q n acc =>
          if Ascii.eqb c q then
            match n with
            | 2 => emit [STRING (str acc)] (lex Start rest)
            | _ => lex (InTriple q (S n) acc) rest
            end
          else if Ascii.eqb c "\" then lex (InTripleEscape q (c :: repeat q n ++ acc)) rest
          else lex (InTriple q 0 (c :: repeat q n ++ acc)) rest
      | InTripleEscape q acc => lex (InTriple q 0 (c :: acc)) rest
      | _ =>
          match extends m c with
          | Some m' => lex m' rest
          | None =>
              let fresh :=
                if Ascii.eqb c "#" then ([], Start)
                else if is_space c then lex Start rest
                else if is_quote c then lex (InString c []) rest
                else if is_alpha c then lex (InName [c]) rest
                else if is_digit c then lex (InNumber [c]) rest
                else lex (InOp c) rest in
              match m with
              | InOp c1 =>
                  if mem (two c1 c) two_char_ops
                  then emit [OP (two c1 c)] (lex Start rest)
                  else emit (flush m) fresh
              | Opened q =>
                  if Ascii.eqb c q then lex (InTriple q 0 []) rest
                  else emit (flush m) fresh
              | _ => emit (flush m) fresh
              end
          end
      end
  end.

Fixpoint skip_spaces (cs : list ascii) : list ascii :=
  match cs with
  | c :: rest => if is_space c then skip_spaces rest else cs
  | [] => []
  end.

(** A mode that the end of a line does not end. *)
Definition carries (m : mode) : bool :=
  match m with
  | InTriple _ _ _ | InTripleEscape _ _ => true
  | _ => false
  end.

Definition newline : ascii := "010".

(** One physical line, read in the mode the line before left.  Outside a
    string, IPython takes lines that start with [%] or [!]. *)
Definition lex_line (m : mode) (l : string) : list token * mode :=
  let cs := list_ascii_of_string l in
  let r :=
    if carries m then lex m cs
    else match skip_spaces cs with
         | c :: rest =>
             if Ascii.eqb c "%" || Ascii.eqb c "!" then ([MAGIC l], Start)
             else lex Start (c :: rest)
         | [] => ([], Start)
         end in
  if carries (snd r) then (fst r, snd (lex (snd r) [newline]))
  else (fst r ++ flush (snd r), Start).

(** The lines of a cell; a string in triple quotes keeps its lines together. *)
Fixpoint lex_lines (m : mode) (cur : list token) (ls : list string)
  : list (list token) :=
  match ls with
  | [] => [cur ++ flush m]
  | l :: rest =>
      let (ts, m') := lex_line m l in
      if carries m' then lex_lines m' (cur ++ ts) rest
      else (cur ++ ts) :: lex_lines Start [] rest
  end.

(** ** Logical lines *)

Definition opens (t : token) : bool :=
  match t with OP s => mem s ["("; "["; "{"] | _ => false end.

Definition closes (t : token) : bool :=
  match t with OP s => mem s [")"; "]"; "}"] | _ => false end.

Definition depth_after (d : nat) (t : token) : nat :=
  if opens t then S d else if closes t then pred d else d.

(** Physical lines are joined while a bracket is open; blank and comment-only
    lines give no statement. *)
Fixpoint join_lines (d : nat) (cur : list token) (ls : list (list token))
  : list (list token) :=
  match ls with
  | [] => match cur with [] => [] | _ => [cur] end
  | l :: rest =>
      let cur' := cur ++ l in
      let d' := fold_left depth_after l d in
      match d', cur' with
      | O, [] => join_lines 0 [] rest
      | O, _ => cur' :: join_lines 0 [] rest
      | _, _ => join_lines d' cur' rest
      end
  end.

(** The statements of a cell, each as its tokens. *)
Definition statements (c : cell) : list (list token) :=
  join_lines 0 [] (lex_lines Start [] (source c)).

Definition all_statements (nb : notebook) : list (list token) :=
  flat_map statements nb.

Definition repo_statements : list (list token) :=
  flat_map all_statements notebooks.

(** ** Keywords and statement kinds *)

Definition py_keywords : list string :=
  ["False"; "None"; "True"; "and"; "as"; "assert"; "async"; "await"; "break";
   "class"; "continue"; "def"; "del"; "elif"; "else"; "except"; "finally";
   "for"; "from"; "global"; "if"; "import"; "in"; "is"; "lambda"; "nonlocal";
   "not"; "or"; "pass"; "raise"; "return"; "try"; "while"; "with"; "yield"].

(** Keywords that do not alter control flow, define nothing and declare no
    state: the import syntax and the three constants. *)
Definition plain_keywords : list string :=
  ["import"; "from"; "as"; "True"; "False"; "None"].

(** Every other keyword: loops, conditionals, definitions, exception and
    context blocks, coroutines, scope declarations, and the keywords that
    are operators or small statements. *)
Definition control_keywords : list string :=
  filter (fun k => negb (mem k plain_keywords)) py_keywords.

Definition names_of (st : list token) : list string :=
  flat_map (fun t => match t with NAME s => [s] | _ => [] end) st.

Definition keywords_of (st : list token) : list string :=
  filter (fun s => mem s py_keywords) (names_of st).

(** Augmented assignments count as assignments. *)
Definition assign_ops : list string :=
  ["="; "+="; "-="; "*="; "/="; "%="; "&="; "|="; "^="; ":="].

(** Split a statement at its first assignment operator outside brackets. *)
Fixpoint split_assign (d : nat) (before : list token) (ts : list token)
  : option (list token * list token) :=
  match ts with
  | [] => None
  | t :: rest =>
      match t, d with
      | OP s, O =>
          if mem s assign_ops then Some (rev before, rest)
          else split_assign (depth_after d t) (t :: before) rest
      | _, _ => split_assign (depth_after d t) (t :: before) rest
      end
  end.

Definition targets (st : list token) : list token :=
  match split_assign 0 [] st with Some (l, _) => l | None => [] end.

Definition value (st : list token) : list token :=
  match split_assign 0 [] st with Some (_, r) => r | None => st end.

Inductive kind : Type :=
| KImport            (* import ... / from ... import ... *)
| KAssign            (* target = expression *)
| KExpr              (* a call or an expression displayed by the notebook *)
| KMagic             (* a line for IPython: %magic, !shell, name? *)
| KKeyword (k : string).  (* a statement opened by another keyword, or a decorator *)

Definition kind_of (st : list token) : kind :=
  match st with
  | MAGIC _ :: _ => KMagic
  | OP "@" :: _ => KKeyword "@"
  | NAME k :: _ =>
      if mem k ["import"; "from"] then KImport
      else if mem k control_keywords then KKeyword k
      else if token_eqb (last st (OP EmptyString)) (OP "?") then KMagic
      else match split_assign 0 [] st with Some _ => KAssign | None => KExpr end
  | _ =>
      match split_assign 0 [] st with Some _ => KAssign | None => KExpr end
  end.

Definition simple_kind (k : kind) : bool :=
  match k with KKeyword _ => false | _ => true end.

(** A line that ends in a colon opens a block. *)
Definition opens_block (st : list token) : bool :=
  token_eqb (last st (OP EmptyString)) (OP ":").

(** A statement is straight-line code when it is a simple statement, opens
    no block, and no control keyword occurs anywhere in it (comments and
    strings apart). *)
Definition straight_lineb (st : list token) : bool :=
  simple_kind (kind_of st) && negb (opens_block st) &&
  forallb (fun k => negb (mem k control_keywords)) (names_of st).

(** ** Imports and bindings *)

(** A dotted name [a.b.c] at the head of a token list, and what follows it. *)
Fixpoint dotted (ts : list token) : string * list token :=
  match ts with
  | NAME a :: rest =>
      match rest with
      | OP s :: rest' =>
          if String.eqb s "." then
            let (m, r) := dotted rest' in ((a ++ "." ++ m)%string, r)
          else (a, rest)
      | _ => (a, rest)
      end
  | _ => (EmptyString, ts)
  end.

(** The names an import list binds: [a], or [b] for [a as b]. *)
Fixpoint imported_names (ts : list token) : list string :=
  match ts with
  | [] => []
  | NAME a :: rest =>
      match rest with
      | NAME k :: NAME b :: rest' =>
          if String.eqb k "as" then b :: imported_names rest'
          else a :: imported_names rest
      | _ => a :: imported_names rest
      end
  | _ :: rest => imported_names rest
  end.

Fixpoint before_dot (cs : list ascii) : list ascii :=
  match cs with
  | [] => []
  | c :: rest => if Ascii.eqb c "." then [] else c :: before_dot rest
  end.

(** The top-level package of a module path. *)
Definition package (m : string) : string :=
  string_of_list_ascii (before_dot (list_ascii_of_string m)).

(** How a name comes to be bound in the notebook's namespace. *)
Inductive origin : Type :=
| Imported (module : string)
| Assigned
| Defined (k : string).   (* by [def] or [class] *)

(** [import M] binds the package of [M]; [import M as x] binds [x];
    [from M import a, b as c] binds [a] and [c]. *)
Definition import_of (st : list token) : option (string * list string) :=
  match st with
  | NAME k :: rest =>
      if String.eqb k "import" then
        let (m, r) := dotted rest in
        match r with
        | NAME _ :: NAME x :: _ => Some (m, [x])
        | _ => Some (m, [package m])
        end
      else if String.eqb k "from" then
        let (m, r) := dotted rest in
        match r with
        | NAME _ :: names => Some (m, imported_names names)
        | _ => Some (m, [])
        end
      else None
  | _ => None
  end.

(** Targets that are plain names (possibly a tuple of names) bind those names;
    a subscript or attribute target stores into an existing object. *)
Definition plain_target (ts : list token) : bool :=
  forallb (fun t => match t with
                    | NAME _ => true
                    | OP s => mem s [","; "("; ")"]
                    | _ => false
                    end) ts.

Definition bindings (st : list token) : list (string * origin) :=
  match kind_of st with
  | KImport =>
      match import_of st with
      | Some (m, xs) => map (fun x => (x, Imported m)) xs
      | None => []
      end
  | KAssign =>
      if plain_target (targets st)
      then map (fun x => (x, Assigned)) (names_of (targets st))
      else []
  | KKeyword k =>
      if mem k ["def"; "class"] then
        match st with
        | _ :: NAME f :: _ => [(f, Defined k)]
        | _ => []
        end
      else if String.eqb k "async" then
        match st with
        | _ :: _ :: NAME f :: _ => [(f, Defined "def")]
        | _ => []
        end
      else []
  | _ => []
  end.

(** All the ways in which the notebook [sts] binds the name [x]. *)
Definition origins (x : string) (sts : list (list token)) : list origin :=
  flat_map (fun st =>
    flat_map (fun b => if String.eqb (fst b) x then [snd b] else [])
             (bindings st)) sts.

Definition imported_modules (sts : list (list token)) : list string :=
  flat_map (fun st => match import_of st with
                      | Some (m, _) => [m]
                      | None => []
                      end) sts.

(** ** Uses of names *)

(** How a name occurs in an expression. *)
Inductive use : Type :=
| Bare                      (* looked up in the notebook's namespace *)
| Attribute (receiver : token)  (* [receiver . name] *)
| Keyword_arg.              (* [name=] inside a call *)

(** Occurrences of [x] in a statement, with the two tokens before each. *)
Fixpoint uses_from (x : string) (d : nat) (p2 p1 : token) (ts : list token)
  : list use :=
  match ts with
  | [] => []
  | t :: rest =>
      let here :=
        match t with
        | NAME s =>
            if String.eqb s x then
              if token_eqb p1 (OP ".") then [Attribute p2]
              else match d, rest with
                   | S _, OP e :: _ => if String.eqb e "=" then [Keyword_arg] else [Bare]
                   | _, _ => [Bare]
                   end
            else []
        | _ => []
        end in
      here ++ uses_from x (depth_after d t) p1 t rest
  end.

Definition no_token : token := OP EmptyString.

(** Occurrences of [x] outside import statements and assignment targets. *)
Definition uses (x : string) (st : list token) : list use :=
  match kind_of st with
  | KImport | KMagic => []
  | KAssign =>
      (if plain_target (targets st) then []
       else uses_from x 0 no_token no_token (targets st))
      ++ uses_from x 0 no_token no_token (value st)
  | _ => uses_from x 0 no_token no_token st
  end.

Definition is_bare (u : use) : bool :=
  match u with Bare => true | _ => false end.

(** Names called as functions: [f(...)] with [f] not an attribute. *)
Fixpoint called_from (p1 : token) (ts : list token) : list string :=
  match ts with
  | [] => []
  | t :: rest =>
      let here :=
        match t, rest with
        | NAME f, OP s :: _ =>
            if String.eqb s "(" && negb (token_eqb p1 (OP ".")) &&
               negb (mem f py_keywords)
            then [f] else []
        | _, _ => []
        end in
      here ++ called_from t rest
  end.

Definition called (st : list token) : list string :=
  match kind_of st with
  | KImport | KMagic => []
  | _ => called_from no_token st
  end.

(** Python builtins the notebooks call. *)
Definition builtins : list string := ["print"; "len"; "type"; "bool"].

(** Walk a notebook in execution order with the namespace built so far
    (latest binding first) and report every called name that does not
    resolve to an import or a builtin at the point of the call. *)
Fixpoint unresolved_calls (env : list (string * origin)) (sts : list (list token))
  : list string :=
  match sts with
  | [] => []
  | st :: rest =>
      filter (fun f =>
                negb (mem f builtins) &&
                negb (match find (fun b => String.eqb (fst b) f) env with
                      | Some (_, Imported _) => true
                      | _ => false
                      end)) (called st)
      ++ unresolved_calls (rev (bindings st) ++ env) rest
  end.

(** Every name looked up bare: names that are neither keywords, attributes,
    keyword arguments nor plain assignment targets. *)
Fixpoint loads_from (d : nat) (p1 : token) (ts : list token) : list string :=
  match ts with
  | [] => []
  | t :: rest =>
      let here :=
        match t with
        | NAME s =>
            if mem s py_keywords || token_eqb p1 (OP ".") then []
            else match d, rest with
                 | S _, OP e :: _ => if String.eqb e "=" then [] else [s]
                 | _, _ => [s]
                 end
        | _ => []
        end in
      here ++ loads_from (depth_after d t) t rest
  end.

Definition loads (st : list token) : list string :=
  match kind_of st with
  | KImport | KMagic => []
  | KAssign =>
      (if plain_target (targets st) then [] else loads_from 0 no_token (targets st))
      ++ loads_from 0 no_token (value st)
  | _ => loads_from 0 no_token st
  end.

(** Names that are read before anything in the notebook binds them. *)
Fixpoint unbound_loads (env : list string) (sts : list (list token)) : list string :=
  match sts with
  | [] => []
  | st :: rest =>
      filter (fun x => negb (mem x builtins) && negb (mem x env)) (loads st)
      ++ unbound_loads (map fst (bindings st) ++ env) rest
  end.

(** The function or method whose result an assignment stores: the dotted
    name at the head of the assigned expression. *)
Definition producer (st : list token) : string := fst (dotted (value st)).

(** The producers of everything a notebook assigns to the name [x]. *)
Definition producers (x : string) (sts : list (list token)) : list string :=
  flat_map (fun st => if mem x (map fst (bindings st)) then [producer st] else []) sts.

(** The objects on which the method [x] is called. *)
Definition receivers (x : string) (sts : list (list token)) : list token :=
  flat_map (fun st => flat_map (fun u => match u with
                                         | Attribute r => [r]
                                         | _ => []
                                         end) (uses x st)) sts.

(** ** Operators applied by the notebooks themselves *)

Definition operators : list string :=
  ["+"; "-"; "*"; "/"; "//"; "%"; "**"; "@"; "&"; "|"; "^"; "<<"; ">>";
   "<"; ">"; "<="; ">="; "=="; "!="].

(** A token after which an operator is binary (it ends an operand). *)
Definition operand_end (t : token) : bool :=
  match t with
  | NAME s => negb (mem s control_keywords)
  | NUMBER _ | STRING _ => true
  | OP s => mem s [")"; "]"; "}"]
  | MAGIC _ => false
  end.

(** The binary operators of a token list, in order, at any bracket depth.
    A sign in front of a literal ([-0.043]) is not one of them. *)
Fixpoint binary_ops_from (p1 : token) (ts : list token) : list string :=
  match ts with
  | [] => []
  | t :: rest =>
      match t with
      | OP s =>
          if mem s operators && operand_end p1
          then s :: binary_ops_from t rest
          else binary_ops_from t rest
      | _ => binary_ops_from t rest
      end
  end.

Definition binary_ops (st : list token) : list string :=
  match kind_of st with
  | KImport | KMagic => []
  | _ => binary_ops_from no_token st
  end.

(** The operators of an expression that stand outside every call and
    subscript: the steps the notebook itself applies to what the calls
    returned.  The stack records, for each open bracket, whether it belongs
    to a call or subscript (it follows an operand) or merely groups. *)
Fixpoint outer_ops_from (stack : list bool) (p1 : token) (ts : list token)
  : list string :=
  match ts with
  | [] => []
  | t :: rest =>
      let stack' :=
        if opens t then operand_end p1 :: stack
        else if closes t then tl stack
        else stack in
      match t with
      | OP s =>
          if mem s operators && operand_end p1 && negb (existsb (fun b => b) stack)
          then s :: outer_ops_from stack' t rest
          else outer_ops_from stack' t rest
      | _ => outer_ops_from stack' t rest
      end
  end.

Definition outer_ops (st : list token) : list string :=
  match kind_of st with
  | KAssign => outer_ops_from [] no_token (value st)
  | _ => []
  end.

(** What an assignment stores into: the assigned name, or the string key of
    a subscript target such as [phot['snr']]. *)
Definition stored (st : list token) : list string :=
  match kind_of st with
  | KAssign =>
      if plain_target (targets st) then names_of (targets st)
      else flat_map (fun t => match t with STRING s => [s] | _ => [] end)
                    (targets st)
  | _ => []
  end.

(** An assignment hands on the unmodified result of a call (or a literal, a
    name, an attribute) when the notebook applies no operator of its own
    outside the calls of its right-hand side. *)
Definition unmodified (st : list token) : bool :=
  match outer_ops st with [] => true | _ => false end.

(** The quantities a notebook derives with operators of its own. *)
Definition derived (sts : list (list token)) : list (list string * list string) :=
  flat_map (fun st => if unmodified st then [] else [(stored st, outer_ops st)]) sts.

(** ** Table input and output *)

Inductive direction : Type := Read | Write.

Record io_call : Type := mk_io {
  dir : direction;
  receiver : token;
  path : option string;        (* first positional argument, a string literal *)
  format_kw : option string    (* the [format=] keyword, when given *)
}.

(** The tokens of an argument list, up to its closing parenthesis. *)
Fixpoint call_args (d : nat) (ts : list token) : list token :=
  match ts with
  | [] => []
  | t :: rest =>
      match depth_after d t with
      | O => []
      | d' => t :: call_args d' rest
      end
  end.

Fixpoint keyword_string (k : string) (ts : list token) : option string :=
  match ts with
  | [] => None
  | t :: rest =>
      match t, rest with
      | NAME n, OP e :: STRING v :: _ =>
          if String.eqb n k && String.eqb e "=" then Some v
          else keyword_string k rest
      | _, _ => keyword_string k rest
      end
  end.

Definition first_string (ts : list token) : option string :=
  match ts with STRING s :: _ => Some s | _ => None end.

Definition direction_of (m : string) : option direction :=
  if String.eqb m "read" then Some Read
  else if String.eqb m "write" then Some Write
  else None.

(** Method calls [receiver.read(...)] and [receiver.write(...)]. *)
Fixpoint io_calls_from (p2 p1 : token) (ts : list token) : list io_call :=
  match ts with
  | [] => []
  | t :: rest =>
      let here :=
        match t, rest with
        | NAME m, OP s :: args =>
            if token_eqb p1 (OP ".") && String.eqb s "(" then
              match direction_of m with
              | Some d =>
                  let a := call_args 1 args in
                  [mk_io d p2 (first_string a) (keyword_string "format" a)]
              | None => []
              end
            else []
        | _, _ => []
        end in
      here ++ io_calls_from p1 t rest
  end.

Definition io_calls (st : list token) : list io_call :=
  match kind_of st with
  | KImport | KMagic => []
  | _ => io_calls_from no_token no_token st
  end.

Fixpoint after_last_dot (acc : option (list ascii)) (cs : list ascii)
  : option (list ascii) :=
  match cs with
  | [] => acc
  | c :: rest =>
      if Ascii.eqb c "." then after_last_dot (Some []) rest
      else after_last_dot (option_map (fun a => a ++ [c]) acc) rest
  end.

Definition extension (p : string) : string :=
  match after_last_dot None (list_ascii_of_string p) with
  | Some e => string_of_list_ascii e
  | None => EmptyString
  end.

(** When a call names no format the table library picks one from the file
    name.  The notebooks rely on this for two extensions only, and say so in
    their text ("An example writing a FITS file", the [.csv] file shown with
    [!head] before it is read); other extensions are left undetermined. *)
Definition format_of_extension (e : string) : option string :=
  if String.eqb e "fits" then Some "fits"
  else if String.eqb e "csv" then Some "ascii.csv"
  else None.

Definition io_format (c : io_call) : option string :=
  match format_kw c with
  | Some f => Some f
  | None =>
      match path c with
      | Some p => format_of_extension (extension p)
      | None => None
      end
  end.

Definition is_read (c : io_call) : bool :=
  match dir c with Read => true | Write => false end.

Definition is_write (c : io_call) : bool := negb (is_read c).

Definition dedup (l : list string) : list string := nodup string_dec l.

Definition formats_of (cs : list io_call) : list string :=
  dedup (flat_map (fun c => match io_format c with Some f => [f] | None => [] end) cs).

(** The formats the repository reads, and the formats it writes. *)
Definition formats_read : list string :=
  formats_of (filter is_read (flat_map io_calls repo_statements)).

Definition formats_written : list string :=
  formats_of (filter is_write (flat_map io_calls repo_statements)).

(** The names by which the spec calls the formats. *)
Definition FITS : string := "fits".
Definition CSV : string := "ascii.csv".
Definition LaTeX : string := "ascii.aastex".
Definition VOTable : string := "votable".
Definition ECSV : string := "ascii.ecsv".

(** Every name under which the table library knows LaTeX tables. *)
Definition latex_formats : list string :=
  ["ascii.aastex"; "ascii.latex"; "aastex"; "latex"].

(** A call that produces or consumes a LaTeX table, by keyword or file name. *)
Definition latex_call (c : io_call) : bool :=
  match format_kw c with
  | Some f => mem f latex_formats
  | None =>
      match path c with
      | Some p => String.eqb (extension p) "tex"
      | None => false
      end
  end.

(** An optional text is the given one. *)
Definition same_text (a : option string) (b : string) : bool :=
  match a with Some x => String.eqb x b | None => false end.

(** ** Capabilities invoked by a statement *)

(** The capabilities named in the purpose statement of the spec. *)
Inductive capability : Type :=
| IO_FITS | IO_CSV | IO_VOTable | IO_LaTeX
| Column_access | Row_access | Masking | Joins | Stacking
| Unit_quantities
| Aperture_photometry | Background_estimation
| Source_detection | Deblending.

Definition capabilities : list capability :=
  [IO_FITS; IO_CSV; IO_VOTable; IO_LaTeX;
   Column_access; Row_access; Masking; Joins; Stacking;
   Unit_quantities;
   Aperture_photometry; Background_estimation;
   Source_detection; Deblending].

(** *** What the names of a notebook hold *)

(** What is known of a name at a point of the notebook: how it was bound
    and, for an assignment, the call whose result it holds, the module that
    call comes from, and whether a comparison formed the value. *)
Record fact : Type := mk_fact {
  fact_name : string;
  fact_origin : origin;
  fact_producer : option string;
  fact_module : option string;
  fact_mask : bool
}.

(** The namespace built so far, latest binding first. *)
Definition namespace : Type := list fact.

Definition lookup (x : string) (ns : namespace) : option fact :=
  find (fun f => String.eqb (fact_name f) x) ns.

(** The module a name is imported from, where an import is what it holds. *)
Definition module_of (ns : namespace) (x : string) : option string :=
  match lookup x ns with
  | Some f => match fact_origin f with Imported m => Some m | _ => None end
  | None => None
  end.

(** The call [f(...)] or [a.f(...)] that an assigned expression consists of:
    a dotted name, an argument list, and nothing after it. *)
Definition call_result (st : list token) : option string :=
  let (p, r) := dotted (value st) in
  match r with
  | OP s :: rest =>
      if String.eqb s "(" &&
         Nat.eqb (S (List.length (call_args 1 rest))) (List.length rest)
      then Some p else None
  | _ => None
  end.

Definition comparisons : list string := ["<"; ">"; "<="; ">="; "=="; "!="].

Definition compares (st : list token) : bool :=
  existsb (fun o => mem o comparisons) (binary_ops st).

(** What a statement adds to the namespace. *)
Definition facts (ns : namespace) (st : list token) : list fact :=
  let p := match kind_of st with KAssign => call_result st | _ => None end in
  let m := match p with Some f => module_of ns (package f) | None => None end in
  map (fun b => mk_fact (fst b) (snd b) p m (compares st)) (bindings st).

(** The calls that return a table, each with the module it comes from. *)
Definition table_makers : list (string * string) :=
  [("astropy.table", "Table"); ("astropy.table", "QTable");
   ("astropy.table", "Table.read"); ("astropy.table", "QTable.read");
   ("astropy.table", "vstack"); ("astropy.table", "hstack");
   ("astropy.table", "join");
   ("photutils", "aperture_photometry");
   ("astroquery.sdss", "SDSS.query_region")].

Definition made_by (makers : list (string * string)) (f : fact) : bool :=
  match fact_origin f, fact_module f, fact_producer f with
  | Assigned, Some m, Some p =>
      existsb (fun k => String.eqb (fst k) m && String.eqb (snd k) p) makers
  | _, _, _ => false
  end.

(** The name holds a table: its latest binding is the result of such a call. *)
Definition is_table (ns : namespace) (x : string) : bool :=
  match lookup x ns with Some f => made_by table_makers f | None => false end.

(** The name holds an annulus aperture. *)
Definition is_annulus (ns : namespace) (x : string) : bool :=
  match lookup x ns with
  | Some f => made_by [("photutils", "CircularAnnulus")] f
  | None => false
  end.

(** The name holds a boolean mask: its latest binding is a comparison. *)
Definition is_mask (ns : namespace) (x : string) : bool :=
  match lookup x ns with
  | Some f => match fact_origin f with Assigned => fact_mask f | _ => false end
  | None => false
  end.

(** *** Subscripts *)

(** The subscripts [x[i ...]] of a token list whose receiver is a bare name:
    the name, the first token of the index, and whether the closing bracket
    ends the token list. *)
Fixpoint name_subscripts (p2 p1 : token) (ts : list token)
  : list (string * token * bool) :=
  match ts with
  | [] => []
  | t :: rest =>
      let here :=
        match p1, t, rest with
        | NAME r, OP s, i :: _ =>
            if String.eqb s "[" && negb (token_eqb p2 (OP "."))
               && negb (mem r py_keywords)
            then [(r, i, Nat.eqb (S (List.length (call_args 1 rest))) (List.length rest))]
            else []
        | _, _, _ => []
        end in
      here ++ name_subscripts p1 t rest
  end.

(** The subscripts a statement reads.  In an assignment target the last
    subscript is the store; the ones before it are read. *)
Definition subscript_loads (st : list token) : list (string * token) :=
  match kind_of st with
  | KAssign =>
      map fst (filter (fun s => negb (snd s))
                      (name_subscripts no_token no_token (targets st)))
      ++ map fst (name_subscripts no_token no_token (value st))
  | KExpr => map fst (name_subscripts no_token no_token st)
  | _ => []
  end.

(** *** Invocation *)

(** A read goes through a table class, a write through a table. *)
Definition transfers (ns : namespace) (f : string) (st : list token) : bool :=
  existsb (fun c =>
    same_text (io_format c) f &&
    match receiver c, dir c with
    | NAME r, Read => same_text (module_of ns r) "astropy.table"
    | NAME r, Write => is_table ns r
    | _, _ => false
    end) (io_calls st).

(** A call of the bare name [f] while [f] is the import from module [m]. *)
Definition calls_import (ns : namespace) (m f : string) (st : list token) : bool :=
  mem f (called st) && same_text (module_of ns f) m.

(** A product or quotient with a unit: [* u.x] or [/ u.x], where [u] is the
    units module. *)
Fixpoint unit_product (ns : namespace) (ts : list token) : bool :=
  match ts with
  | [] => false
  | t :: rest =>
      match t, rest with
      | OP o, NAME a :: OP d :: NAME _ :: _ =>
          (mem o ["*"; "/"] && String.eqb d "."
           && same_text (module_of ns a) "astropy.units")
          || unit_product ns rest
      | _, _ => unit_product ns rest
      end
  end.

(** The mean level in an annulus: a table column divided by the area of an
    annulus aperture, [t['...'] / a.area()]. *)
Fixpoint annulus_mean_level (ns : namespace) (ts : list token) : bool :=
  match ts with
  | [] => false
  | t :: rest =>
      match t, rest with
      | OP c, OP s :: NAME a :: OP d :: NAME f :: OP p :: _ =>
          (String.eqb c "]" && String.eqb s "/" && String.eqb d "."
           && String.eqb f "area" && String.eqb p "(" && is_annulus ns a)
          || annulus_mean_level ns rest
      | _, _ => annulus_mean_level ns rest
      end
  end.

Definition reads_subscript (ns : namespace) (index : token -> bool) (st : list token)
  : bool :=
  existsb (fun s => is_table ns (fst s) && index (snd s)) (subscript_loads st).

(** The statement invokes the capability, given what the names hold when it
    runs. *)
Definition invokes (ns : namespace) (cap : capability) (st : list token) : bool :=
  match cap with
  | IO_FITS => transfers ns FITS st
  | IO_CSV => transfers ns CSV st
  | IO_VOTable => transfers ns VOTable st
  | IO_LaTeX => transfers ns LaTeX st
  | Column_access =>
      reads_subscript ns (fun i => match i with STRING _ => true | _ => false end) st
  | Row_access =>
      reads_subscript ns (fun i => match i with NUMBER _ => true | _ => false end) st
  | Masking =>
      reads_subscript ns (fun i => match i with NAME m => is_mask ns m | _ => false end) st
  | Joins => calls_import ns "astropy.table" "join" st
  | Stacking =>
      calls_import ns "astropy.table" "vstack" st
      || calls_import ns "astropy.table" "hstack" st
  | Unit_quantities =>
      calls_import ns "astropy.table" "QTable" st || unit_product ns (value st)
  | Aperture_photometry => calls_import ns "photutils" "aperture_photometry" st
  | Background_estimation =>
      reads_subscript ns (fun _ => true) st && annulus_mean_level ns (value st)
  | Source_detection => calls_import ns "photutils" "detect_sources" st
  | Deblending => calls_import ns "photutils" "deblend_sources" st
  end.

(** Only a statement that runs counts: an assignment or an expression of
    straight-line code. *)
Definition runs (st : list token) : bool :=
  straight_lineb st &&
  match kind_of st with KAssign | KExpr => true | _ => false end.

Definition invoked (ns : namespace) (st : list token) : list capability :=
  if runs st then filter (fun cap => invokes ns cap st) capabilities else [].

(** Run the statements of a cell: the capabilities invoked, and the
    namespace after the cell.  The walk follows straight-line code only: at
    the first statement that is not, it stops ([None]), since what a block
    runs, and what the names hold after it, is not decided here; nothing
    from there on counts. *)
Fixpoint walk_statements (ns : option namespace) (sts : list (list token))
  : list capability * option namespace :=
  match sts with
  | [] => ([], ns)
  | st :: rest =>
      match ns with
      | Some n =>
          if straight_lineb st then
            let (caps, ns') := walk_statements (Some (rev (facts n st) ++ n)) rest in
            (invoked n st ++ caps, ns')
          else ([], None)
      | None => ([], None)
      end
  end.

(** Run the cells of a notebook in order: what each cell invokes. *)
Fixpoint walk_cells (ns : option namespace) (cells : list cell)
  : list (cell * list capability) :=
  match cells with
  | [] => []
  | c :: rest =>
      let (caps, ns') := walk_statements ns (statements c) in
      (c, caps) :: walk_cells ns' rest
  end.

Definition demonstrations (nb : notebook) : list (cell * list capability) :=
  walk_cells (Some []) nb.

Definition capability_eqb (a b : capability) : bool :=
  match a, b with
  | IO_FITS, IO_FITS | IO_CSV, IO_CSV | IO_VOTable, IO_VOTable
  | IO_LaTeX, IO_LaTeX | Column_access, Column_access
  | Row_access, Row_access | Masking, Masking | Joins, Joins
  | Stacking, Stacking | Unit_quantities, Unit_quantities
  | Aperture_photometry, Aperture_photometry
  | Background_estimation, Background_estimation
  | Source_detection, Source_detection | Deblending, Deblending => true
  | _, _ => false
  end.

(** The cells of a notebook (by source line) that invoke a capability. *)
Definition invoked_in (cap : capability) (nb : notebook) : list nat :=
  map (fun p => cell_line (fst p))
      (filter (fun p => existsb (capability_eqb cap) (snd p)) (demonstrations nb)).

(** ** The operations named by the spec *)

Definition functions : list string :=
  ["vstack"; "hstack"; "join"; "aperture_photometry"; "detect_sources"; "deblend_sources"].

Definition methods : list string := ["read"; "write"].

Definition operations : list string := methods ++ functions.

Definition library_packages : list string := ["astropy"; "photutils"].

Definition from_library (o : origin) : bool :=
  match o with
  | Imported m => mem (package m) library_packages
  | _ => false
  end.

(** What a method of the libraries may be called on: a name that the
    notebook binds, and binds only by import from the libraries (a class) or
    by assignment (a value some call returned). *)
Definition library_receiver (sts : list (list token)) (r : token) : bool :=
  match r with
  | NAME c =>
      match origins c sts with
      | [] => false
      | os => forallb (fun o => match o with
                                | Assigned => true
                                | _ => from_library o
                                end) os
      end
  | _ => false
  end.

(** ** Concurrency primitives *)

Definition concurrency_modules : list string :=
  ["threading"; "_thread"; "multiprocessing"; "concurrent"; "asyncio";
   "subprocess"; "sched"; "signal"; "queue"; "select"; "selectors";
   "socketserver"; "trio"; "curio"; "gevent"; "twisted"; "tornado";
   "joblib"; "dask"; "ray"; "celery"].

Definition concurrency_names : list string :=
  concurrency_modules ++
  ["async"; "await"; "yield";
   "Thread"; "Timer"; "Lock"; "RLock"; "Semaphore"; "BoundedSemaphore";
   "Condition"; "Event"; "Barrier"; "Process"; "Pool"; "Queue"; "Manager";
   "ThreadPoolExecutor"; "ProcessPoolExecutor"; "Executor"; "Future"; "Popen";
   "create_task"; "ensure_future"; "gather"; "run_in_executor";
   "get_event_loop"; "run_until_complete"; "cancel"; "fork"; "spawn"].

(** A shell line runs in the foreground unless it asks for a background job. *)
Definition foreground (st : list token) : bool :=
  match st with
  | MAGIC l :: _ => negb (existsb (Ascii.eqb "&") (list_ascii_of_string l))
  | _ => true
  end.

Definition sequentialb (st : list token) : bool :=
  forallb (fun x => negb (mem x concurrency_names)) (names_of st) && foreground st.

(** ** Execution *)

(** A notebook is run cell by cell from the top, each cell statement by
    statement.  What one statement does to the interpreter's state is the
    business of Python and the libraries: it is a parameter here. *)
Section Execution.

Variable state : Type.
Variable exec : list token -> state -> state.

Definition run_statements (sts : list (list token)) (s : state) : state :=
  fold_left (fun s st => exec st s) sts s.

Definition run_cell (c : cell) (s : state) : state :=
  run_statements (statements c) s.

Definition run (nb : notebook) (s : state) : state :=
  fold_left (fun s c => run_cell c s) nb s.

End Execution.

(** ** The arithmetic of the photometry notebook *)

(** The columns and images the notebook computes with are [float64] arrays,
    and its operators act element by element: Python's [/], [*], [-], [+] on
    such arrays are the binary64 operations below.  What the libraries
    return is an argument of each function. *)
Module Photometry.

Open Scope float_scope.

Definition column : Type := list float.

(** Element-wise operation on two columns of one table. *)
Definition zip_with (f : float -> float -> float) (a b : column) : column :=
  map (fun p => f (fst p) (snd p)) (combine a b).

(** [snr = phot['aperture_sum'] / phot['aperture_sum_err']] *)
Definition snr (aperture_sum aperture_sum_err : column) : column :=
  zip_with PrimFloat.div aperture_sum aperture_sum_err.

Definition f160w_zpt : float := 25.9463.

(** [abmag = -2.5 * np.log10(phot['aperture_sum'].value) + f160w_zpt] *)
Definition abmag (log10 : column -> column) (aperture_sum : column) : column :=
  map (fun l => -2.5 * l + f160w_zpt) (log10 aperture_sum).

(** [phot['annulus_mean'] = phot['annulus_sum'] / bkg_aper.area()] *)
Definition annulus_mean (annulus_sum : column) (bkg_area : float) : column :=
  map (fun s => s / bkg_area) annulus_sum.

(** [phot['aperture_bkg'] = phot['annulus_mean'] * aper.area()] *)
Definition aperture_bkg (annulus_mean : column) (aper_area : float) : column :=
  map (fun m => m * aper_area) annulus_mean.

(** [flux_bkgsub = phot['aperture_sum'] - phot['aperture_bkg']] *)
Definition flux_bkgsub (aperture_sum aperture_bkg : column) : column :=
  zip_with PrimFloat.sub aperture_sum aperture_bkg.

Definition bkg : float := 0.
Definition nsigma : float := 2.

(** [threshold = bkg + (nsigma * error)], over the pixels of the error image *)
Definition threshold (error : list float) : list float :=
  map (fun e => bkg + (nsigma * e)) error.

(** [sigma = 2.0 * gaussian_fwhm_to_sigma] *)
Definition sigma (gaussian_fwhm_to_sigma : float) : float :=
  2.0 * gaussian_fwhm_to_sigma.

(** The local-background cells in sequence: from the two sums returned by
    [aperture_photometry] and the two areas returned by the apertures. *)
Definition aperture_sum_bkgsub
  (aperture_sum annulus_sum : column) (aper_area bkg_area : float) : column :=
  flux_bkgsub aperture_sum
    (aperture_bkg (annulus_mean annulus_sum bkg_area) aper_area).

(** A value is an unmodified library result when it is one of the values
    the library calls returned. *)
Definition returned (results : list column) (v : column) : bool :=
  existsb (fun r => forallb (fun p => PrimFloat.eqb (fst p) (snd p)) (combine r v)
                    && Nat.eqb (List.length r) (List.length v)) results.

End Photometry.

(** ** Files read and written, in order *)

(** A path under [data/]: a file that comes with the notebooks. *)
Definition shipped (p : string) : bool := String.prefix "data/" p.

Definition same_format (a b : option string) : bool :=
  match a, b with
  | Some f, Some g => String.eqb f g
  | None, None => true
  | _, _ => false
  end.

Definition has_path (p : string) (c : io_call) : bool :=
  match path c with Some q => String.eqb p q | None => false end.

(** A read is served when its file is shipped, or when a write call made
    earlier (the latest comes first in [written]) produced the file in the
    format the read asks for. *)
Definition served (written : list io_call) (c : io_call) : bool :=
  match path c with
  | Some p =>
      shipped p ||
      match find (has_path p) written with
      | Some w => same_format (io_format w) (io_format c)
      | None => false
      end
  | None => false
  end.

(** Walk a notebook in execution order, handing each statement the write
    calls made before it (latest first), and collect what [check] reports. *)
Fixpoint offenders {A : Type} (check : list io_call -> list token -> list A)
  (written : list io_call) (sts : list (list token)) : list A :=
  match sts with
  | [] => []
  | st :: rest =>
      check written st
      ++ offenders check (rev (filter is_write (io_calls st)) ++ written) rest
  end.

(** The read calls of a statement that no shipped file and no earlier write
    serves. *)
Definition unserved (written : list io_call) (st : list token) : list io_call :=
  filter (fun c => is_read c && negb (served written c)) (io_calls st).

Definition unserved_reads (sts : list (list token)) : list io_call :=
  offenders unserved [] sts.

(** The paths a notebook writes to, in order. *)
Definition write_paths (sts : list (list token)) : list string :=
  flat_map (fun c => match path c with Some p => [p] | None => [] end)
           (filter is_write (flat_map io_calls sts)).

Fixpoint distinct (l : list string) : bool :=
  match l with
  | [] => true
  | x :: rest => negb (mem x rest) && distinct rest
  end.

(** Write calls whose target is not a string literal outside [data/]. *)
Definition unsafe_writes (sts : list (list token)) : list io_call :=
  filter (fun c => is_write c &&
                   negb (match path c with
                         | Some p => negb (shipped p)
                         | None => false
                         end)) (flat_map io_calls sts).

(** ** Shell lines *)

(** Split at spaces. *)
Fixpoint words_from (cur : list ascii) (cs : list ascii) : list string :=
  match cs with
  | [] => match cur with [] => [] | _ => [str cur] end
  | c :: rest =>
      if is_space c
      then match cur with
           | [] => words_from [] rest
           | _ => str cur :: words_from [] rest
           end
      else words_from (c :: cur) rest
  end.

(** The command and the arguments of a [!command args] line. *)
Definition shell_of (st : list token) : option (string * list string) :=
  match st with
  | MAGIC l :: _ =>
      match skip_spaces (list_ascii_of_string l) with
      | c :: rest =>
          if Ascii.eqb c "!" then
            match words_from [] rest with
            | cmd :: args => Some (cmd, args)
            | [] => None
            end
          else None
      | [] => None
      end
  | _ => None
  end.

(** Commands that only show files. *)
Definition viewers : list string := ["ls"; "head"; "cat"].

(** The file a [head] or [cat] line shows: its last argument. *)
Definition shown_file (cmd : string) (args : list string) : option string :=
  if mem cmd ["head"; "cat"] then
    match rev args with f :: _ => Some f | [] => None end
  else None.

Definition shell_ok (written : list io_call) (st : list token) : bool :=
  match shell_of st with
  | Some (cmd, args) =>
      mem cmd viewers &&
      match shown_file cmd args with
      | Some f => shipped f || existsb (has_path f) written
      | None => true
      end
  | None => true
  end.

(** Shell lines that run another command, or show a file that is neither
    shipped nor written earlier in the notebook. *)
Definition bad_shell (written : list io_call) (st : list token) : list (list token) :=
  if shell_ok written st then [] else [st].

Definition bad_shell_lines (sts : list (list token)) : list (list token) :=
  offenders bad_shell [] sts.

(** ** Imported names stay what they are *)

Definition bound_names (sts : list (list token)) : list string :=
  map fst (flat_map bindings sts).

Definition is_import (o : origin) : bool :=
  match o with Imported _ => true | _ => false end.

(** A name is stable when an import, if it binds the name at all, is the
    only thing that ever binds it. *)
Definition stable (sts : list (list token)) (x : string) : bool :=
  match origins x sts with
  | [Imported _] => true
  | os => negb (existsb is_import os)
  end.

(** ** The age mask of the table notebook *)

Module Ages.

Open Scope float_scope.

(** [mask = (tbl['age'] < 75) & np.isfinite(tbl['age'])], element by element
    on the [float64] column of ages. *)
Definition mask (age : list float) : list bool :=
  map (fun a => (a <? 75) && is_finite a) age.

End Ages.

(** ** The bad pixel of the photometry notebook *)

(** Images are arrays of rows.  Storing at an index outside the array raises
    [IndexError] in Python: [None] here. *)
Module BadPixel.

Definition image (A : Type) : Type := list (list A).

Fixpoint set_nth {A : Type} (l : list A) (n : nat) (v : A) : option (list A) :=
  match l, n with
  | [], _ => None
  | _ :: t, O => Some (v :: t)
  | h :: t, S k => option_map (cons h) (set_nth t k v)
  end.

(** [img[row, col]] *)
Definition pixel {A : Type} (img : image A) (row col : nat) : option A :=
  match nth_error img row with
  | Some r => nth_error r col
  | None => None
  end.

(** [img[row, col] = v] *)
Definition set_pixel {A : Type} (img : image A) (row col : nat) (v : A)
  : option (image A) :=
  match nth_error img row with
  | Some r =>
      match set_nth r col v with
      | Some r' => set_nth img row r'
      | None => None
      end
  | None => None
  end.

(** [np.zeros_like(img, dtype=bool)] *)
Definition zeros_like {A : Type} (img : image A) : image bool :=
  map (map (fun _ => false)) img.

Definition x : nat := 59.
Definition y : nat := 91.

(** [data2 = data.copy()]; [data2[y, x] = 100.] *)
Definition data2 (data : image float) : option (image float) :=
  set_pixel data y x 100%float.

(** [mask = np.zeros_like(data2, dtype=bool)]; [mask[y, x] = True] *)
Definition mask (data2 : image float) : option (image bool) :=
  set_pixel (zeros_like data2) y x true.

End BadPixel.

(** ** Areas and zero *)

(** A positive finite number, as the area of an aperture is. *)
Definition positive_finite (a : float) : bool :=
  match Prim2SF a with
  | S754_finite false _ _ => true
  | _ => false
  end.

(** ** Calls of a library function *)

(** The argument tokens of every call of the bare name [f] in a statement. *)
Fixpoint calls_from (f : string) (p1 : token) (ts : list token)
  : list (list token) :=
  match ts with
  | [] => []
  | t :: rest =>
      let here :=
        match t, rest with
        | NAME g, OP s :: args =>
            if String.eqb g f && String.eqb s "(" && negb (token_eqb p1 (OP "."))
            then [call_args 1 args] else []
        | _, _ => []
        end in
      here ++ calls_from f t rest
  end.

Definition calls (f : string) (st : list token) : list (list token) :=
  match kind_of st with
  | KImport | KMagic => []
  | _ => calls_from f no_token st
  end.

(** The keywords of an argument list: the names followed by [=] that stand
    directly in it (not inside a nested bracket). *)
Fixpoint keywords_from (d : nat) (args : list token) : list string :=
  match args with
  | [] => []
  | t :: rest =>
      let here :=
        match t, d, rest with
        | NAME k, O, OP e :: _ => if String.eqb e "=" then [k] else []
        | _, _, _ => []
        end in
      here ++ keywords_from (depth_after d t) rest
  end.

Definition keywords (args : list token) : list string := keywords_from 0 args.

(** The number of arguments given by position: the comma-separated items
    that stand before the first keyword. *)
Fixpoint commas_from (d : nat) (args : list token) : nat :=
  match args with
  | [] => 0
  | t :: rest =>
      match t, d with
      | OP s, O =>
          (if String.eqb s "," then 1 else 0) + commas_from (depth_after d t) rest
      | _, _ => commas_from (depth_after d t) rest
      end
  end.

Definition positional (args : list token) : nat :=
  match args with
  | [] => 0
  | _ => S (commas_from 0 args) - List.length (keywords args)
  end.

(** The keywords of [aperture_photometry] that the notebook uses. *)
Definition photometry_keywords : list string :=
  ["method"; "subpixels"; "error"; "unit"; "mask"; "wcs"].

Definition photometry_call_ok (args : list token) : bool :=
  Nat.eqb (positional args) 2
  && forallb (fun k => mem k photometry_keywords) (keywords args)
  && (negb (mem "subpixels" (keywords args))
      || same_format (keyword_string "method" args) (Some "subpixel")).

(** ** State at module level *)

(** A store into an object: an assignment whose target is a subscript or an
    attribute, [phot['snr'] = snr]. *)
Definition in_place_store (st : list token) : bool :=
  match kind_of st with
  | KAssign => negb (plain_target (targets st))
  | _ => false
  end.

Definition stores (sts : list (list token)) : list (list token) :=
  filter in_place_store sts.

(** The module-level name through which a store reaches its object. *)
Definition store_root (st : list token) : option string :=
  match targets st with NAME r :: _ => Some r | _ => None end.

(** How often a notebook assigns the name [x]. *)
Definition assignments (x : string) (sts : list (list token)) : nat :=
  List.length (filter (fun o => match o with Assigned => true | _ => false end)
                      (origins x sts)).

(** The names a notebook assigns more than once. *)
Definition rebound (sts : list (list token)) : list string :=
  dedup (filter (fun x => Nat.ltb 1 (assignments x sts)) (bound_names sts)).

(** ** Properties as propositions *)

(** Straight-line code: a simple statement in which no control keyword occurs. *)
Definition straight_line (st : list token) : Prop :=
  (kind_of st = KImport \/ kind_of st = KAssign \/
   kind_of st = KExpr \/ kind_of st = KMagic)
  /\ opens_block st = false
  /\ (forall k, In (NAME k) st -> ~ In k control_keywords)
  /\ (forall b k, In b (bindings st) -> snd b <> Defined k).

(** A statement that touches no concurrency primitive. *)
Definition sequential (st : list token) : Prop :=
  (forall x, In (NAME x) st -> ~ In x concurrency_names) /\ foreground st = true.

(** The name [x] is an operation of the table or photometry library in the
    notebook [nb]: whatever binds it is an import from one of the two
    packages; a function is used as a bare name, and a method as an attribute
    of a class imported from the libraries or of a value held in a notebook
    variable; and every call of a bare name resolves, where it is made, to
    an import or a builtin. *)
Definition library_operation (x : string) (nb : notebook) : Prop :=
  let sts := all_statements nb in
  (forall o, In o (origins x sts) ->
     exists m, o = Imported m /\ In (package m) library_packages)
  /\ (forall st u, In st sts -> In u (uses x st) ->
        (u = Bare /\ In x functions)
        \/ (exists r, u = Attribute r /\ In x methods /\ library_receiver sts r = true))
  /\ unresolved_calls [] sts = []
  /\ (In x functions ->
        exists nb' m, In nb' notebooks /\ In (Imported m) (origins x (all_statements nb'))).

(** ** Auxiliary lemmas *)

(** Membership in an explicit list, by search. *)
Ltac find_in := repeat first [ left; reflexivity | right ].

(** A conjunction of closed equations, each by evaluation. *)
Ltac computes :=
  repeat match goal with |- _ /\ _ => split end; vm_compute; reflexivity.

Lemma mem_In (x : string) (l : list string) : mem x l = true <-> In x l.
Proof.
  unfold mem. rewrite existsb_exists. split.
  - intros [y [Hy E]]. apply String.eqb_eq in E. now subst.
  - intros H. exists x. split; [assumption | apply String.eqb_refl].
Qed.

Lemma not_mem_In (x : string) (l : list string) : negb (mem x l) = true -> ~ In x l.
Proof.
  intros H I. apply mem_In in I. rewrite I in H. discriminate.
Qed.

Lemma names_of_In (k : string) (st : list token) : In (NAME k) st -> In k (names_of st).
Proof.
  intros H. unfold names_of. apply in_flat_map. exists (NAME k). split; [assumption | now left].
Qed.

Lemma in_all_statements (nb : notebook) (c : cell) (st : list token) :
  In c nb -> In st (statements c) -> In st (all_statements nb).
Proof.
  intros Hc Hst. unfold all_statements. apply in_flat_map. now exists c.
Qed.

Lemma in_repo_statements (nb : notebook) (st : list token) :
  In nb notebooks -> In st (all_statements nb) -> In st repo_statements.
Proof.
  intros Hnb Hst. unfold repo_statements. apply in_flat_map. now exists nb.
Qed.

Lemma found_In {A : Type} (p : A -> bool) (l : list A) (x : A) :
  find p l = Some x -> In x l.
Proof.
  intros H. now apply find_some in H.
Qed.

Lemma forallb_In {A : Type} (f : A -> bool) (l : list A) (x : A) :
  forallb f l = true -> In x l -> f x = true.
Proof.
  intros H. now apply forallb_forall.
Qed.

Lemma simple_kind_cases (k : kind) :
  simple_kind k = true -> k = KImport \/ k = KAssign \/ k = KExpr \/ k = KMagic.
Proof.
  destruct k; simpl; intros H; try discriminate; tauto.
Qed.

(** A statement that binds by [def] or [class] starts with a control keyword. *)
Lemma defined_needs_keyword (st : list token) (b : string * origin) (k : string) :
  simple_kind (kind_of st) = true -> In b (bindings st) -> snd b <> Defined k.
Proof.
  unfold bindings. destruct (kind_of st) eqn:K; simpl; intros S Hb; try discriminate.
  - destruct (import_of st) as [[m xs] |]; [| contradiction].
    apply in_map_iff in Hb. destruct Hb as [y [E _]]. subst b. simpl. discriminate.
  - destruct (plain_target (targets st)); [| contradiction].
    apply in_map_iff in Hb. destruct Hb as [y [E _]]. subst b. simpl. discriminate.
  - contradiction.
  - contradiction.
Qed.

Lemma straight_lineb_sound (st : list token) :
  straight_lineb st = true -> straight_line st.
Proof.
  unfold straight_lineb, straight_line. intros H.
  apply andb_true_iff in H. destruct H as [H N].
  apply andb_true_iff in H. destruct H as [S B].
  split; [| split; [| split]].
  - now apply simple_kind_cases.
  - now apply negb_true_iff in B.
  - intros k Hk. apply not_mem_In.
    apply (forallb_In _ _ k N). now apply names_of_In.
  - intros b k Hb. exact (defined_needs_keyword st b k S Hb).
Qed.

Lemma sequentialb_sound (st : list token) :
  sequentialb st = true -> sequential st.
Proof.
  unfold sequentialb, sequential. intros H.
  apply andb_true_iff in H. destruct H as [N F]. split; [| assumption].
  intros x Hx. apply not_mem_In.
  apply (forallb_In _ _ x N). now apply names_of_In.
Qed.

Section Execution_lemmas.

Variable state : Type.
Variable exec : list token -> state -> state.

Lemma run_statements_app (a b : list (list token)) (s : state) :
  run_statements state exec (a ++ b) s =
  run_statements state exec b (run_statements state exec a s).
Proof.
  unfold run_statements. apply fold_left_app.
Qed.

(** Running a notebook is running the statements of its cells, in order. *)
Lemma run_flat (nb : notebook) (s : state) :
  run state exec nb s = run_statements state exec (all_statements nb) s.
Proof.
  revert s. induction nb as [| c nb IH]; intros s.
  - reflexivity.
  - simpl. rewrite run_statements_app. rewrite <- IH. reflexivity.
Qed.

(** Cells compose: the second half starts in the state the first half left. *)
Lemma run_app (a b : notebook) (s : state) :
  run state exec (a ++ b) s = run state exec b (run state exec a s).
Proof.
  unfold run. apply fold_left_app.
Qed.

End Execution_lemmas.

(** ** The checks at work *)

(** The tokenizer drops comments, keeps strings whole and joins the lines of
    an open bracket. *)
Example lexes_assignment :
  statements (code 86 [
    "tbl = Table()";
    "tbl['name'] = ['Graham Chapman', 'John Cleese', 'Terry Gilliam', ";
    "               'Eric Idle', 'Terry Jones', 'Michael Palin']" ])
  = [[NAME "tbl"; OP "="; NAME "Table"; OP "("; OP ")"];
     [NAME "tbl"; OP "["; STRING "name"; OP "]"; OP "="; OP "[";
      STRING "Graham Chapman"; OP ","; STRING "John Cleese"; OP ",";
      STRING "Terry Gilliam"; OP ","; STRING "Eric Idle"; OP ",";
      STRING "Terry Jones"; OP ","; STRING "Michael Palin"; OP "]"]].
Proof. vm_compute. reflexivity. Qed.

Example lexes_comment :
  statements (code 106 [
    "tbl['age'] = [np.nan, 78, 77, 74, 75, 74]";
    EmptyString;
    "# whereas, this would fail because it isn't the same length as the table:";
    "# tbl['age'] = [77, 77]" ])
  = [[NAME "tbl"; OP "["; STRING "age"; OP "]"; OP "="; OP "[";
      NAME "np"; OP "."; NAME "nan"; OP ","; NUMBER "78"; OP ","; NUMBER "77";
      OP ","; NUMBER "74"; OP ","; NUMBER "75"; OP ","; NUMBER "74"; OP "]"]].
Proof. vm_compute. reflexivity. Qed.

(** The checks can fail: cells unlike those of the repository are rejected. *)
Example loop_is_rejected :
  forallb straight_lineb
    (statements (code 0 ["for a in apers:"; "    print(a.area())"])) = false.
Proof. vm_compute. reflexivity. Qed.

Example conditional_expression_is_rejected :
  forallb straight_lineb
    (statements (code 0 ["bkg = 0. if nsigma else 1."])) = false.
Proof. vm_compute. reflexivity. Qed.

Example definition_is_rejected :
  forallb straight_lineb
    (statements (code 0 ["def read(path):"; "    return Table.read(path)"])) = false
  /\ origins "read" (statements (code 0 ["def read(path):"; "    return Table.read(path)"]))
     = [Defined "def"].
Proof. computes. Qed.

Example assigned_function_is_unresolved :
  unresolved_calls []
    (statements (code 0 ["join = lambda a, b: a"; "join(tbl_a, tbl_b)"])) = ["join"].
Proof. vm_compute. reflexivity. Qed.

Example thread_is_rejected :
  forallb sequentialb
    (statements (code 0 ["import threading"; "threading.Thread(target=print).start()"]))
  = false.
Proof. vm_compute. reflexivity. Qed.

Example background_job_is_rejected :
  forallb sequentialb (statements (code 0 ["!cat my_photometry.txt &"])) = false.
Proof. vm_compute. reflexivity. Qed.

Example block_is_rejected :
  forallb straight_lineb
    (statements (code 0 ["match phot:"; "    case _: print(phot)"])) = false.
Proof. vm_compute. reflexivity. Qed.

Example call_result_is_unmodified :
  map unmodified
    (statements (code 0 ["phot = aperture_photometry(data * unit, aperture)";
                         "flux = (phot['aperture_sum'] - phot['aperture_bkg'])"]))
  = [true; false].
Proof. vm_compute. reflexivity. Qed.

(** A cell in triple quotes is one string: it has no statement that runs. *)
Example quoted_cell_is_a_string :
  statements (code 0 ["'''"; "from astropy.table import join";
                      "bright_stars = join(tbl_a, tbl_b, keys='name')"; "'''"])
  = [[STRING (String newline ("from astropy.table import join"
              ++ String newline ("bright_stars = join(tbl_a, tbl_b, keys='name')"
              ++ String newline EmptyString)))%string]].
Proof. vm_compute. reflexivity. Qed.

(** What counts as invoking a capability, and what does not. *)
Example quoted_call_invokes_nothing :
  flat_map snd (demonstrations
    [code 0 ["from astropy.table import Table, join"; "tbl_a = Table()"; "tbl_b = Table()"];
     code 0 ["'''"; "bright_stars = join(tbl_a, tbl_b, keys='name')"; "'''"]]) = []
  /\ flat_map snd (demonstrations
    [code 0 ["from astropy.table import Table, join"; "tbl_a = Table()"; "tbl_b = Table()"];
     code 0 ["bright_stars = join(tbl_a, tbl_b, keys='name')"]]) = [Joins].
Proof. computes. Qed.

Example guarded_call_invokes_nothing :
  flat_map snd (demonstrations
    [code 0 ["from photutils import detect_sources";
             "if False: segm = detect_sources(data, threshold, npixels)"]]) = []
  /\ flat_map snd (demonstrations
    [code 0 ["from photutils import detect_sources";
             "if False:";
             "    segm = detect_sources(data, threshold, npixels)"]]) = []
  /\ flat_map snd (demonstrations
    [code 0 ["if False:";
             "    from photutils import detect_sources"];
     code 0 ["segm = detect_sources(data, threshold, npixels)"]]) = []
  /\ flat_map snd (demonstrations
    [code 0 ["from photutils import detect_sources";
             "segm = detect_sources(data, threshold, npixels)"]]) = [Source_detection].
Proof. computes. Qed.

Example unimported_name_invokes_nothing :
  flat_map snd (demonstrations
    [code 0 ["join = print"; "bright_stars = join(tbl_a, tbl_b)"]]) = [].
Proof. vm_compute. reflexivity. Qed.

Example header_subscript_is_no_column_access :
  flat_map snd (demonstrations
    [code 0 ["from astropy.io import fits"; "sci_hdulist = fits.open(sci_fn)";
             "hdr = sci_hdulist[0].header"; "eff_gain = hdr['TEXPTIME']";
             "sci_hdulist[0]"]]) = []
  /\ flat_map snd (demonstrations
    [code 0 ["from astropy.table import Table"; "tbl = Table()";
             "tbl['age'].format = '%.0f'"; "tbl[1]"; "tbl.meta['version']"]])
     = [Column_access; Row_access].
Proof. computes. Qed.

Example circle_area_is_no_background :
  flat_map snd (demonstrations
    [code 0 ["from photutils import CircularAperture, CircularAnnulus, aperture_photometry";
             "aper = CircularAperture(positions, r=3)";
             "bkg_aper = CircularAnnulus(positions, r_in=10., r_out=15.)";
             "phot = aperture_photometry(data, aper)"];
     code 0 ["surface = phot['aperture_sum'] / aper.area()"];
     code 0 ["level = phot['aperture_sum'] / bkg_aper.area()"]])
  = [Aperture_photometry; Column_access; Column_access; Background_estimation].
Proof. vm_compute. reflexivity. Qed.

(** A counter and a cache kept at module level are straight-line code; the
    rebinding and the store are found as module state. *)
Example module_state_is_found :
  let sts := statements (code 0 ["counter = 0"; "cache = {}";
                                 "counter = counter + 1"; "cache['k'] = counter"]) in
  forallb straight_lineb sts = true
  /\ rebound sts = ["counter"]
  /\ stores sts = [[NAME "cache"; OP "["; STRING "k"; OP "]"; OP "="; NAME "counter"]].
Proof. intros sts. computes. Qed.

(** The notebook's arithmetic on small inputs. *)
Example snr_example :
  (Photometry.snr [10; 7.5] [2; 2.5] = [5; 3])%float.
Proof. vm_compute. reflexivity. Qed.

Example abmag_example :
  (Photometry.abmag (fun _ => [1; 2]) [10; 100] = [23.4463; 20.9463])%float.
Proof. vm_compute. reflexivity. Qed.

Example local_background_example :
  (Photometry.annulus_mean [20; 30] 4 = [5; 7.5]
   /\ Photometry.aperture_bkg [5; 7.5] 2 = [10; 15]
   /\ Photometry.flux_bkgsub [10; 7.5] [10; 15] = [0; -7.5])%float.
Proof. computes. Qed.

Example threshold_example :
  (Photometry.threshold [1.5; 0.25] = [3; 0.5])%float.
Proof. vm_compute. reflexivity. Qed.

Example sigma_example :
  (Photometry.sigma 0.5 = 1)%float.
Proof. vm_compute. reflexivity. Qed.

(** ** Checks on the two notebooks *)

Lemma repo_straight_line : forallb straight_lineb repo_statements = true.
Proof. vm_compute. reflexivity. Qed.

Lemma repo_sequential : forallb sequentialb repo_statements = true.
Proof. vm_compute. reflexivity. Qed.

Lemma repo_keywords :
  dedup (flat_map keywords_of repo_statements) = ["False"; "as"; "True"; "from"; "import"].
Proof. vm_compute. reflexivity. Qed.

Lemma repo_calls_resolve :
  forall nb, In nb notebooks -> unresolved_calls [] (all_statements nb) = [].
Proof.
  intros nb [<- | [<- | []]]; vm_compute; reflexivity.
Qed.

Lemma repo_names_bound :
  forall nb, In nb notebooks -> unbound_loads [] (all_statements nb) = [].
Proof.
  intros nb [<- | [<- | []]]; vm_compute; reflexivity.
Qed.

Lemma repo_packages :
  dedup (map package (flat_map (fun nb => imported_modules (all_statements nb)) notebooks))
  = ["astroquery"; "numpy"; "matplotlib"; "astropy"; "photutils"].
Proof. vm_compute. reflexivity. Qed.

(** The objects on which [read] and [write] are called, and where the
    tables that are written come from: [tbl1] from [Table.read], [phot] from
    [aperture_photometry], [sdss_data] from the [SDSS] query of astroquery. *)
Lemma method_receivers :
  dedup (flat_map (fun nb => names_of (receivers "read" (all_statements nb))) notebooks)
  = ["Table"; "QTable"]
  /\ dedup (flat_map (fun nb => names_of (receivers "write" (all_statements nb))) notebooks)
     = ["tbl1"; "sdss_data"; "phot"]
  /\ origins "Table" (all_statements Reading_data) = [Imported "astropy.table"]
  /\ origins "QTable" (all_statements part_000) = [Imported "astropy.table"]
  /\ dedup (producers "tbl1" (all_statements Reading_data)) = ["Table.read"]
  /\ dedup (producers "phot" (all_statements part_000)) = ["aperture_photometry"]
  /\ dedup (producers "sdss_data" (all_statements Reading_data)) = ["SDSS.query_region"]
  /\ origins "SDSS" (all_statements Reading_data) = [Imported "astroquery.sdss"].
Proof. computes. Qed.

(** ** The claims *)

(** C9, as stated, fails in one clause: the notebooks do keep mutable state
    at module level.  [phot['snr'] = snr] stores into the table that the
    module-level name [phot] holds, [phot] is assigned 12 times, and the
    notebooks make 20 and 14 such stores. *)
Lemma notebooks_keep_module_state :
  In [NAME "phot"; OP "["; STRING "snr"; OP "]"; OP "="; NAME "snr"]
     (stores (all_statements part_000))
  /\ In "phot" (rebound (all_statements part_000))
  /\ assignments "phot" (all_statements part_000) = 12
  /\ List.length (stores (all_statements Reading_data)) = 20
  /\ List.length (stores (all_statements part_000)) = 14.
Proof.
  split; [vm_compute; find_in |]. split; [vm_compute; find_in |]. computes.
Qed.

(** C9, amended: every statement of every code cell of both notebooks is
    straight-line code.  It is an import, an assignment, an expression (a
    call or a value the notebook displays) or a line for IPython; it opens
    no block; no keyword of a loop, conditional, function or class
    definition, lambda, coroutine ([async], [await], [yield]), exception or
    context block, or scope declaration ([global], [nonlocal]) occurs in
    it; and it binds nothing by [def] or [class], so the repository has no
    inheritance hierarchy and no dispatch of its own.  The state of a
    notebook is kept at module level: the names listed are assigned more
    than once, and the stores (20 and 14 of them) each go into an object
    held in a module-level name. *)
Theorem cells_are_straight_line_over_module_state :
  (forall nb c st,
     In nb notebooks -> In c nb -> In st (statements c) -> straight_line st)
  /\ map (fun nb => List.length (stores (all_statements nb))) notebooks = [20; 14]
  /\ map (fun nb => rebound (all_statements nb)) notebooks
     = [["tbl"; "tbl_a"; "tbl_b"];
        ["x"; "y"; "coord"; "radius"; "sky_apers"; "positions"; "phot";
         "lbl1"; "lbl2"; "fig"; "ax1"; "ax2"]]
  /\ assignments "phot" (all_statements part_000) = 12
  /\ (forall nb st,
        In nb notebooks -> In st (stores (all_statements nb)) ->
        kind_of st = KAssign
        /\ exists r, store_root st = Some r /\ In r (bound_names (all_statements nb))).
Proof.
  split; [| split; [| split; [| split]]].
  - intros nb c st Hnb Hc Hst. apply straight_lineb_sound.
    apply (forallb_In _ _ st repo_straight_line).
    apply (in_repo_statements nb); [assumption |].
    now apply (in_all_statements nb c).
  - vm_compute. reflexivity.
  - vm_compute. reflexivity.
  - vm_compute. reflexivity.
  - intros nb st Hnb Hst.
    assert (C : forallb (fun st =>
                  match store_root st with
                  | Some r => mem r (bound_names (all_statements nb))
                  | None => false
                  end) (stores (all_statements nb)) = true)
      by (destruct Hnb as [<- | [<- | []]]; vm_compute; reflexivity).
    pose proof (forallb_In _ _ st C Hst) as R. cbv beta in R.
    apply filter_In in Hst. destruct Hst as [_ S].
    unfold in_place_store in S. split.
    + destruct (kind_of st); try discriminate. reflexivity.
    + destruct (store_root st) as [r |]; [| discriminate].
      exists r. split; [reflexivity | now apply mem_In].
Qed.

Lemma cells_are_straight_line_over_module_state_witness :
  let c := code 1182 [
    "bkg = 0.  # background level in this image";
    "nsigma = 2.";
    "threshold = bkg + (nsigma * error)  # this should be background-only error" ] in
  let st := [NAME "threshold"; OP "="; NAME "bkg"; OP "+"; OP "(";
             NAME "nsigma"; OP "*"; NAME "error"; OP ")"] in
  In part_000 notebooks /\ In c part_000 /\ In st (statements c) /\ straight_line st.
Proof.
  intros c st.
  assert (Hnb : In part_000 notebooks) by (right; left; reflexivity).
  assert (Hc : In c part_000)
    by (apply (found_In (fun c => Nat.eqb (cell_line c) 1182)); vm_compute; reflexivity).
  assert (Hst : In st (statements c)) by (vm_compute; find_in).
  split; [exact Hnb | split; [exact Hc | split; [exact Hst |]]].
  exact (proj1 cells_are_straight_line_over_module_state part_000 c st Hnb Hc Hst).
Defined.

(** C10: no statement of either notebook touches a concurrency, scheduling or
    cancellation primitive: none of its names is one ([threading],
    [multiprocessing], [asyncio], [async], [await], locks, pools, ...), its
    shell lines run in the foreground, every module it imports belongs to
    astropy, astroquery, matplotlib, numpy or photutils, and every name it
    reads is bound earlier in the notebook or is a builtin.  Running the
    notebook is therefore the sequential composition of the statements of
    its cells, in order. *)
Theorem notebooks_run_sequentially :
  forall nb, In nb notebooks ->
    (forall st, In st (all_statements nb) -> sequential st)
    /\ (forall m, In m (imported_modules (all_statements nb)) ->
          In (package m) ["astropy"; "astroquery"; "matplotlib"; "numpy"; "photutils"]
          /\ ~ In (package m) concurrency_modules)
    /\ unbound_loads [] (all_statements nb) = []
    /\ (forall (state : Type) (exec : list token -> state -> state) (s : state),
          run state exec nb s = run_statements state exec (all_statements nb) s)
    /\ (forall (state : Type) (exec : list token -> state -> state) (s : state) a b,
          nb = a ++ b -> run state exec nb s = run state exec b (run state exec a s)).
Proof.
  intros nb Hnb.
  assert (S : forall st, In st (all_statements nb) -> sequential st).
  { intros st Hst. apply sequentialb_sound.
    apply (forallb_In _ _ st repo_sequential).
    now apply (in_repo_statements nb). }
  assert (P : forallb (fun m =>
                mem (package m) ["astropy"; "astroquery"; "matplotlib"; "numpy"; "photutils"]
                && negb (mem (package m) concurrency_modules))
                (imported_modules (all_statements nb)) = true)
    by (destruct Hnb as [<- | [<- | []]]; vm_compute; reflexivity).
  split; [exact S | split; [| split; [| split]]].
  - intros m Hm. pose proof (forallb_In _ _ m P Hm) as F.
    apply andb_true_iff in F. destruct F as [I N].
    split; [now apply mem_In | now apply not_mem_In].
  - now apply repo_names_bound.
  - intros state exec s. apply run_flat.
  - intros state exec s a b E. subst nb. apply run_app.
Qed.

Lemma notebooks_run_sequentially_witness :
  In part_000 notebooks
  /\ (forall st, In st (all_statements part_000) -> sequential st)
  /\ unbound_loads [] (all_statements part_000) = [].
Proof.
  assert (Hnb : In part_000 notebooks) by (right; left; reflexivity).
  split; [assumption |].
  destruct (notebooks_run_sequentially part_000 Hnb) as [S [_ [U _]]].
  split; assumption.
Defined.

(** C5: each of [read], [write], [vstack], [hstack], [join],
    [aperture_photometry], [detect_sources], [deblend_sources] is an
    operation of an external library: in either notebook, anything that binds
    the name is an import from astropy or photutils (nothing defines or
    assigns it), the six functions are each imported and used as bare names
    that resolve to an import where they are called, and [read] and [write]
    occur only as attributes of an object. *)
Theorem operations_are_library_calls :
  forall x nb, In x operations -> In nb notebooks -> library_operation x nb.
Proof.
  intros x nb Hx Hnb. unfold library_operation.
  assert (O : forallb from_library (origins x (all_statements nb)) = true).
  { simpl in Hx.
    destruct Hnb as [<- | [<- | []]];
      repeat (destruct Hx as [<- | Hx]; [vm_compute; reflexivity |]);
      contradiction. }
  assert (U : forallb (fun st => forallb (fun u =>
                match u with
                | Bare => mem x functions
                | Attribute r => mem x methods && library_receiver (all_statements nb) r
                | Keyword_arg => false
                end) (uses x st)) (all_statements nb) = true).
  { simpl in Hx.
    destruct Hnb as [<- | [<- | []]];
      repeat (destruct Hx as [<- | Hx]; [vm_compute; reflexivity |]);
      contradiction. }
  split; [| split; [| split]].
  - intros o Ho. pose proof (forallb_In _ _ o O Ho) as F.
    destruct o as [m | | k]; simpl in F; try discriminate.
    exists m. split; [reflexivity | now apply mem_In].
  - intros st u Hst Hu.
    pose proof (forallb_In _ _ u (forallb_In _ _ st U Hst) Hu) as F.
    destruct u as [| r |]; simpl in F; try discriminate.
    + left. split; [reflexivity | now apply mem_In].
    + apply andb_true_iff in F. destruct F as [M R].
      right. exists r. split; [reflexivity | split; [now apply mem_In | exact R]].
  - now apply repo_calls_resolve.
  - intros Hf. simpl in Hf.
    destruct Hf as [<- | [<- | [<- | Hf]]].
    + exists Reading_data, "astropy.table". split; [now left | vm_compute; find_in].
    + exists Reading_data, "astropy.table". split; [now left | vm_compute; find_in].
    + exists Reading_data, "astropy.table". split; [now left | vm_compute; find_in].
    + destruct Hf as [<- | [<- | [<- | []]]].
      * exists part_000, "photutils". split; [right; now left | vm_compute; find_in].
      * exists part_000, "photutils". split; [right; now left | vm_compute; find_in].
      * exists part_000, "photutils". split; [right; now left | vm_compute; find_in].
Qed.

Lemma operations_are_library_calls_witness :
  In "aperture_photometry" operations /\ In part_000 notebooks
  /\ library_operation "aperture_photometry" part_000.
Proof.
  assert (Hx : In "aperture_photometry" operations) by (vm_compute; find_in).
  assert (Hnb : In part_000 notebooks) by (right; left; reflexivity).
  split; [exact Hx | split; [exact Hnb |]].
  exact (operations_are_library_calls "aperture_photometry" part_000 Hx Hnb).
Defined.




(** Where each capability is invoked: the source lines of the cells, in the
    table notebook and in the photometry notebook. *)
Lemma where_invoked :
  map (fun cap => (invoked_in cap Reading_data, invoked_in cap part_000)) capabilities
  = [([407; 524; 653; 956], []);
     ([435; 564], []);
     ([540], []);
     ([462], []);
     ([202; 211; 256; 274; 323; 362; 378; 697; 726; 735],
      [732; 755; 874; 883; 1113; 1130; 1147]);
     ([220; 229; 238], []);
     ([274], []);
     ([929], []);
     ([826; 875], []);
     ([633; 675; 713; 751; 905], [532; 553; 570; 942; 955]);
     ([], [363; 413; 436; 462; 489; 532; 553; 570; 641; 669; 697; 977; 993; 1092]);
     ([], [1113]);
     ([], [1208; 1257]);
     ([], [1304])].
Proof. vm_compute. reflexivity. Qed.

(** C2, as stated, fails: the LaTeX table format is read (by the call with
    [format='ascii.aastex'] on [example_table_data.tex]) and no write call
    produces it, under any of its names or by a [.tex] file name. *)
Lemma latex_is_read_but_never_written :
  In LaTeX formats_read
  /\ ~ In LaTeX formats_written
  /\ existsb (fun c => is_read c && latex_call c)
             (flat_map io_calls repo_statements) = true
  /\ existsb (fun c => is_write c && latex_call c)
             (flat_map io_calls repo_statements) = false.
Proof.
  split; [vm_compute; find_in |].
  split; [apply not_mem_In; vm_compute; reflexivity |].
  split; vm_compute; reflexivity.
Qed.

(** C2, amended: the formats read by [Table.read] and [QTable.read] are FITS,
    CSV, LaTeX, plain ASCII and ECSV; the formats written are FITS, CSV,
    VOTable, plain ASCII and ECSV; so every format that is read, LaTeX
    excepted, is also written, and VOTable is written without being read. *)
Theorem read_formats_but_latex_are_written :
  formats_read = [CSV; LaTeX; "ascii"; FITS; ECSV]
  /\ formats_written = [VOTable; CSV; "ascii"; FITS; ECSV]
  /\ (forall f, In f formats_read -> f <> LaTeX -> In f formats_written)
  /\ ~ In VOTable formats_read.
Proof.
  assert (R : formats_read = [CSV; LaTeX; "ascii"; FITS; ECSV])
    by (vm_compute; reflexivity).
  assert (W : formats_written = [VOTable; CSV; "ascii"; FITS; ECSV])
    by (vm_compute; reflexivity).
  split; [exact R |]. split; [exact W |]. rewrite R, W. split.
  - intros f Hf Hn. simpl in Hf. simpl.
    destruct Hf as [<- | [<- | [<- | [<- | [<- | []]]]]];
      first [ contradiction Hn; reflexivity | tauto ].
  - apply not_mem_In. vm_compute. reflexivity.
Qed.

Lemma read_formats_but_latex_are_written_witness :
  In ECSV formats_read /\ ECSV <> LaTeX /\ In ECSV formats_written.
Proof.
  destruct read_formats_but_latex_are_written as [R [_ [H _]]].
  assert (Hr : In ECSV formats_read) by (rewrite R; simpl; tauto).
  assert (Hn : ECSV <> LaTeX) by discriminate.
  split; [exact Hr | split; [exact Hn | exact (H ECSV Hr Hn)]].
Defined.

(** C1, as stated, fails: the notebooks compute with operators of their own.
    The AB magnitude is the result of [np.log10] scaled and shifted by the
    notebook: where [np.log10] returns 1 (for the sum 10) the magnitude is
    23.4463.  The background-subtracted flux is computed by the notebook
    from four library results: for two sources with aperture sums 10 and
    7.5 and annulus sums 20 and 30, and the areas of the notebook's
    apertures ([r=3]; [r_in=10.], [r_out=15.]), it is 8.56 and 5.34, which
    is none of the values the library calls returned. *)
Lemma derived_quantities_are_modified :
  (exists st, In st (all_statements part_000)
              /\ stored st = ["abmag"]
              /\ outer_ops st = ["*"; "+"]
              /\ unmodified st = false)
  /\ (Photometry.abmag (fun _ => [1]) [10] = [23.4463])%float
  /\ (Photometry.aperture_sum_bkgsub
        [10; 7.5] [20; 30] 28.274333882308138 392.6990816987241
      = [8.56; 5.34])%float
  /\ (Photometry.returned
        [[10; 7.5]; [20; 30]; [28.274333882308138]; [392.6990816987241]]
        (Photometry.aperture_sum_bkgsub
           [10; 7.5] [20; 30] 28.274333882308138 392.6990816987241))%float
     = false.
Proof.
  split.
  - exists [NAME "abmag"; OP "="; OP "-"; NUMBER "2.5"; OP "*"; NAME "np"; OP ".";
            NAME "log10"; OP "("; NAME "phot"; OP "["; STRING "aperture_sum";
            OP "]"; OP "."; NAME "value"; OP ")"; OP "+"; NAME "f160w_zpt"].
    split; [| repeat split].
    apply (found_In (fun st => mem "abmag" (stored st))). vm_compute. reflexivity.
  - computes.
Qed.

(** C1, amended: the repository defines no function or class, uses no control
    keyword, and every function its notebooks call is imported from an
    external package or is a builtin; what the notebooks add is operators
    applied to library results and literals.  The assignments whose value is
    formed by such an operator outside any call are exactly the ones listed
    (each with those operators); every other assignment hands on a call
    result, literal or name unmodified.  The background-subtracted flux
    is [aperture_sum - annulus_sum / bkg_area * aper_area], row by row. *)
Theorem notebooks_add_only_operators :
  (forall st b k, In st repo_statements -> In b (bindings st) -> snd b <> Defined k)
  /\ (forall st k, In st repo_statements -> In (NAME k) st -> ~ In k control_keywords)
  /\ (forall nb, In nb notebooks -> unresolved_calls [] (all_statements nb) = [])
  /\ derived (all_statements Reading_data)
     = [(["mask"], ["<"; "&"]); (["age"], ["*"]); (["age"], ["*"]);
        (["ra"], ["*"]); (["dec"], ["*"]); (["time"], ["*"])]
  /\ derived (all_statements part_000)
     = [(["unit"], ["/"]); (["snr"], ["/"]); (["abmag"], ["*"; "+"]);
        (["radius"], ["*"]); (["radius"], ["*"]); (["annulus_mean"], ["/"]);
        (["aperture_bkg"], ["*"]); (["flux_bkgsub"], ["-"]);
        (["threshold"], ["+"; "*"]); (["sigma"], ["*"])]
  /\ (forall aperture_sum annulus_sum aper_area bkg_area,
        Photometry.aperture_sum_bkgsub aperture_sum annulus_sum aper_area bkg_area
        = Photometry.zip_with PrimFloat.sub aperture_sum
            (map (fun s => (s / bkg_area * aper_area)%float) annulus_sum)).
Proof.
  split; [| split; [| split; [| split; [| split]]]].
  - intros st b k Hst Hb.
    destruct (straight_lineb_sound st (forallb_In _ _ st repo_straight_line Hst))
      as [_ [_ [_ D]]].
    now apply D.
  - intros st k Hst.
    destruct (straight_lineb_sound st (forallb_In _ _ st repo_straight_line Hst))
      as [_ [_ [N _]]].
    apply N.
  - exact repo_calls_resolve.
  - vm_compute. reflexivity.
  - vm_compute. reflexivity.
  - intros aperture_sum annulus_sum aper_area bkg_area.
    unfold Photometry.aperture_sum_bkgsub, Photometry.flux_bkgsub,
      Photometry.aperture_bkg, Photometry.annulus_mean.
    rewrite map_map. reflexivity.
Qed.

Lemma notebooks_add_only_operators_witness :
  In part_000 notebooks /\ unresolved_calls [] (all_statements part_000) = [].
Proof.
  destruct notebooks_add_only_operators as [_ [_ [H _]]].
  assert (Hnb : In part_000 notebooks) by (right; left; reflexivity).
  split; [exact Hnb | exact (H part_000 Hnb)].
Defined.

(** ** Further properties of the notebooks *)

(** *** Files *)

Lemma filter_nil {A : Type} (f : A -> bool) (l : list A) (x : A) :
  filter f l = [] -> In x l -> f x = false.
Proof.
  intros E Hx. destruct (f x) eqn:F; [| reflexivity].
  assert (I : In x (filter f l)) by (apply filter_In; split; assumption).
  rewrite E in I. contradiction.
Qed.

Lemma same_format_eq (a b : option string) : same_format a b = true -> a = b.
Proof.
  destruct a as [f |], b as [g |]; simpl; intros H; try discriminate.
  - apply String.eqb_eq in H. now subst.
  - reflexivity.
Qed.

Lemma has_path_eq (p : string) (c : io_call) : has_path p c = true -> path c = Some p.
Proof.
  unfold has_path. destruct (path c) as [q |]; intros H; [| discriminate].
  apply String.eqb_eq in H. now subst.
Qed.

(** The write calls that precede a statement, seen from the walk. *)
Lemma written_before (pre : list (list token)) (w : io_call) :
  In w (rev (filter is_write (flat_map io_calls pre)) ++ []) ->
  In w (flat_map io_calls pre) /\ is_write w = true.
Proof.
  rewrite app_nil_r. intros H. apply in_rev in H. now apply filter_In in H.
Qed.

(** What the walk reports for a statement depends only on the writes before it. *)
Lemma offenders_nil {A : Type} (check : list io_call -> list token -> list A)
  (pre : list (list token)) :
  forall written st post,
    offenders check written (pre ++ st :: post) = [] ->
    check (rev (filter is_write (flat_map io_calls pre)) ++ written) st = [].
Proof.
  induction pre as [| s0 pre IH]; intros written st post H; simpl in H.
  - apply app_eq_nil in H. destruct H as [H _]. exact H.
  - apply app_eq_nil in H. destruct H as [_ H].
    apply IH in H. simpl.
    rewrite filter_app, rev_app_distr, <- app_assoc. exact H.
Qed.

Lemma served_sound (written : list io_call) (c : io_call) :
  served written c = true ->
  exists p, path c = Some p /\
    (shipped p = true \/
     exists w, In w written /\ path w = Some p /\ io_format w = io_format c).
Proof.
  unfold served. destruct (path c) as [p |]; [| discriminate].
  intros H. exists p. split; [reflexivity |].
  apply orb_true_iff in H. destruct H as [H | H]; [now left | right].
  destruct (find (has_path p) written) as [w |] eqn:F; [| discriminate].
  apply find_some in F. destruct F as [I P].
  exists w. split; [exact I | split; [now apply has_path_eq | now apply same_format_eq]].
Qed.

Lemma distinct_NoDup (l : list string) : distinct l = true -> NoDup l.
Proof.
  induction l as [| x l IH]; simpl; intros H.
  - constructor.
  - apply andb_true_iff in H. destruct H as [N D].
    constructor; [now apply not_mem_In | now apply IH].
Qed.

(** X1: every table the notebooks read comes from a file under [data/], or from
    a file that an earlier write call of the same notebook produced, and
    then in the format the read asks for. *)
Theorem reads_are_served :
  forall nb pre st post c,
    In nb notebooks ->
    all_statements nb = pre ++ st :: post ->
    In c (io_calls st) -> is_read c = true ->
    exists p, path c = Some p /\
      (shipped p = true \/
       exists w, In w (flat_map io_calls pre) /\ is_write w = true
                 /\ path w = Some p /\ io_format w = io_format c).
Proof.
  intros nb pre st post c Hnb E Hc Hr.
  assert (U : unserved_reads (all_statements nb) = [])
    by (destruct Hnb as [<- | [<- | []]]; vm_compute; reflexivity).
  unfold unserved_reads in U. rewrite E in U.
  apply offenders_nil in U. unfold unserved in U.
  pose proof (filter_nil _ _ c U Hc) as F. cbv beta in F. rewrite Hr in F. simpl in F.
  apply negb_false_iff in F. apply served_sound in F.
  destruct F as [p [P [S | [w [I [Q G]]]]]]; exists p; split; try exact P.
  - now left.
  - right. exists w. apply written_before in I. destruct I as [I W].
    repeat split; assumption.
Qed.

Lemma reads_are_served_witness :
  let sts := all_statements part_000 in
  let pre := firstn 87 sts in
  let st := nth 87 sts [] in
  let post := skipn 88 sts in
  let c := mk_io Read (NAME "QTable") (Some "my_photometry.txt") (Some "ascii.ecsv") in
  In part_000 notebooks /\ sts = pre ++ st :: post
  /\ In c (io_calls st) /\ is_read c = true
  /\ exists p, path c = Some p /\
       (shipped p = true \/
        exists w, In w (flat_map io_calls pre) /\ is_write w = true
                  /\ path w = Some p /\ io_format w = io_format c).
Proof.
  intros sts pre st post c.
  assert (Hnb : In part_000 notebooks) by (right; left; reflexivity).
  assert (E : sts = pre ++ st :: post) by (vm_compute; reflexivity).
  assert (Hc : In c (io_calls st)) by (vm_compute; find_in).
  assert (Hr : is_read c = true) by reflexivity.
  split; [exact Hnb | split; [exact E | split; [exact Hc | split; [exact Hr |]]]].
  exact (reads_are_served part_000 pre st post c Hnb E Hc Hr).
Defined.

(** X2: the notebooks never write into [data/], and within a notebook no two
    write calls go to the same file: every write call names its target by a
    string literal outside [data/], and the targets are pairwise distinct. *)
Theorem writes_are_fresh :
  forall nb, In nb notebooks ->
    NoDup (write_paths (all_statements nb))
    /\ forall c, In c (flat_map io_calls (all_statements nb)) -> is_write c = true ->
         exists p, path c = Some p /\ shipped p = false
                   /\ In p (write_paths (all_statements nb)).
Proof.
  intros nb Hnb. split.
  - apply distinct_NoDup.
    destruct Hnb as [<- | [<- | []]]; vm_compute; reflexivity.
  - intros c Hc Hw.
    assert (U : unsafe_writes (all_statements nb) = [])
      by (destruct Hnb as [<- | [<- | []]]; vm_compute; reflexivity).
    pose proof (filter_nil _ _ c U Hc) as F. cbv beta in F. rewrite Hw in F. simpl in F.
    apply negb_false_iff in F.
    destruct (path c) as [p |] eqn:P; [| discriminate].
    exists p. split; [reflexivity | split; [now apply negb_true_iff in F |]].
    unfold write_paths. apply in_flat_map. exists c. split.
    + apply filter_In. split; assumption.
    + rewrite P. now left.
Qed.

Lemma writes_are_fresh_witness :
  In Reading_data notebooks
  /\ NoDup (write_paths (all_statements Reading_data)).
Proof.
  assert (Hnb : In Reading_data notebooks) by (left; reflexivity).
  split; [exact Hnb | exact (proj1 (writes_are_fresh Reading_data Hnb))].
Defined.

(** X3: the shell lines of the notebooks only show files: each runs [ls],
    [head] or [cat], and a file shown by [head] or [cat] is under [data/]
    or was produced by an earlier write call of the same notebook. *)
Theorem shell_lines_only_show :
  forall nb pre st post cmd args,
    In nb notebooks ->
    all_statements nb = pre ++ st :: post ->
    shell_of st = Some (cmd, args) ->
    In cmd viewers
    /\ forall f, shown_file cmd args = Some f ->
         shipped f = true \/
         exists w, In w (flat_map io_calls pre) /\ is_write w = true /\ path w = Some f.
Proof.
  intros nb pre st post cmd args Hnb E Hs.
  assert (U : bad_shell_lines (all_statements nb) = [])
    by (destruct Hnb as [<- | [<- | []]]; vm_compute; reflexivity).
  unfold bad_shell_lines in U. rewrite E in U.
  apply offenders_nil in U. unfold bad_shell in U.
  destruct (shell_ok _ st) eqn:K; [| discriminate].
  unfold shell_ok in K. rewrite Hs in K.
  apply andb_true_iff in K. destruct K as [V K]. split; [now apply mem_In |].
  intros f Hf. rewrite Hf in K.
  apply orb_true_iff in K. destruct K as [K | K]; [now left | right].
  apply existsb_exists in K. destruct K as [w [I P]].
  apply written_before in I. destruct I as [I W].
  exists w. repeat split; try assumption. now apply has_path_eq.
Qed.

Lemma shell_lines_only_show_witness :
  let sts := all_statements part_000 in
  let pre := firstn 85 sts in
  let st := nth 85 sts [] in
  let post := skipn 86 sts in
  In part_000 notebooks /\ sts = pre ++ st :: post
  /\ shell_of st = Some ("cat", ["my_photometry.txt"])
  /\ In "cat" viewers.
Proof.
  intros sts pre st post.
  assert (Hnb : In part_000 notebooks) by (right; left; reflexivity).
  assert (E : sts = pre ++ st :: post) by (vm_compute; reflexivity).
  assert (Hs : shell_of st = Some ("cat", ["my_photometry.txt"]))
    by (vm_compute; reflexivity).
  split; [exact Hnb | split; [exact E | split; [exact Hs |]]].
  exact (proj1 (shell_lines_only_show part_000 pre st post _ _ Hnb E Hs)).
Defined.

(** *** Imported names *)

Lemma origins_bound (x : string) (o : origin) (sts : list (list token)) :
  In o (origins x sts) -> In x (bound_names sts).
Proof.
  unfold origins, bound_names. intros H.
  apply in_flat_map in H. destruct H as [st [Hst H]].
  apply in_flat_map in H. destruct H as [b [Hb H]].
  destruct (String.eqb (fst b) x) eqn:E; [| contradiction].
  apply String.eqb_eq in E. subst x.
  apply in_map. apply in_flat_map. now exists st.
Qed.

Lemma stable_sound (sts : list (list token)) (x m : string) :
  stable sts x = true -> In (Imported m) (origins x sts) ->
  origins x sts = [Imported m].
Proof.
  unfold stable. intros S I.
  assert (N : negb (existsb is_import (origins x sts)) = true -> False).
  { intros N. apply negb_true_iff in N.
    assert (T : existsb is_import (origins x sts) = true)
      by (apply existsb_exists; exists (Imported m); split; [exact I | reflexivity]).
    rewrite T in N. discriminate. }
  destruct (origins x sts) as [| o os]; [contradiction |].
  destruct o as [m' | | k]; try (exfalso; now apply N).
  destruct os as [| o' os]; [| exfalso; now apply N].
  destruct I as [I | []]. now rewrite I.
Qed.

(** X4: a name that an import binds is bound by nothing else in its notebook:
    it is never assigned, defined or imported a second time, so it denotes
    the imported object wherever it is used. *)
Theorem imports_are_never_rebound :
  forall nb x m,
    In nb notebooks ->
    In (Imported m) (origins x (all_statements nb)) ->
    origins x (all_statements nb) = [Imported m].
Proof.
  intros nb x m Hnb I.
  assert (C : forallb (stable (all_statements nb)) (bound_names (all_statements nb)) = true)
    by (destruct Hnb as [<- | [<- | []]]; vm_compute; reflexivity).
  apply stable_sound; [| exact I].
  apply (forallb_In _ _ x C). now apply (origins_bound x (Imported m)).
Qed.

Lemma imports_are_never_rebound_witness :
  In part_000 notebooks
  /\ In (Imported "photutils") (origins "aperture_photometry" (all_statements part_000))
  /\ origins "aperture_photometry" (all_statements part_000) = [Imported "photutils"].
Proof.
  assert (Hnb : In part_000 notebooks) by (right; left; reflexivity).
  assert (I : In (Imported "photutils")
                (origins "aperture_photometry" (all_statements part_000)))
    by (vm_compute; find_in).
  split; [exact Hnb | split; [exact I |]].
  exact (imports_are_never_rebound part_000 _ _ Hnb I).
Defined.

(** *** Floats *)

Lemma float_eq (a b : float) : Prim2SF a = Prim2SF b -> a = b.
Proof.
  intros H. rewrite <- (SF2Prim_Prim2SF a), <- (SF2Prim_Prim2SF b). now rewrite H.
Qed.

Lemma sub_zero (s : float) : (s - 0 = s)%float.
Proof.
  apply float_eq. rewrite sub_spec.
  change (Prim2SF 0) with (S754_zero false).
  destruct (Prim2SF s) as [[|] | [|] | | [|] m e]; reflexivity.
Qed.

Lemma zero_div (b : float) : positive_finite b = true -> (0 / b = 0)%float.
Proof.
  unfold positive_finite. intros H. apply float_eq. rewrite div_spec.
  change (Prim2SF 0) with (S754_zero false).
  destruct (Prim2SF b) as [[|] | [|] | | [|] m e]; try discriminate. reflexivity.
Qed.

Lemma zero_mul (b : float) : positive_finite b = true -> (0 * b = 0)%float.
Proof.
  unfold positive_finite. intros H. apply float_eq. rewrite mul_spec.
  change (Prim2SF 0) with (S754_zero false).
  destruct (Prim2SF b) as [[|] | [|] | | [|] m e]; try discriminate. reflexivity.
Qed.


Lemma SFcompare_finite_refl (s : bool) (m : positive) (e : Z) :
  SFcompare (S754_finite s m e) (S754_finite s m e) = Some Eq.
Proof.
  simpl. destruct s; rewrite Z.compare_refl, Pos.compare_cont_refl; reflexivity.
Qed.

(** Below 75 and not minus infinity means finite. *)
Lemma below_75_finite (a : float) :
  a <> neg_infinity -> (a <? 75)%float = true -> is_finite a = true.
Proof.
  intros Hn. rewrite ltb_spec. unfold is_finite, is_nan, is_infinity.
  rewrite !eqb_spec, abs_spec.
  change (Prim2SF infinity) with (S754_infinity false).
  destruct (Prim2SF a) as [[|] | [|] | | [|] m e] eqn:E;
    try reflexivity; try discriminate.
  - exfalso. apply Hn. apply float_eq. rewrite E. reflexivity.
  - intros _. unfold SFeqb. rewrite SFcompare_finite_refl. reflexivity.
  - intros _. unfold SFeqb. rewrite SFcompare_finite_refl. reflexivity.
Qed.

Lemma nan_not_below (a b : float) : is_nan a = true -> (a <? b)%float = false.
Proof.
  unfold is_nan. rewrite eqb_spec, ltb_spec. unfold SFeqb, SFltb.
  destruct (Prim2SF a) as [[|] | [|] | | [|] m e]; try discriminate; try reflexivity.
  - rewrite SFcompare_finite_refl. discriminate.
  - rewrite SFcompare_finite_refl. discriminate.
Qed.

(** *** The age mask *)

(** X5: the mask has one entry per row.  A row is selected exactly when its age
    is below 75, with one exception: an age of minus infinity is below 75
    and is not selected.  In particular a missing age (NaN) is never
    selected, and for it the test [np.isfinite] is not needed. *)
Theorem age_mask_selects_below_75 :
  forall age i a,
    nth_error age i = Some a ->
    List.length (Ages.mask age) = List.length age
    /\ (a <> neg_infinity -> nth_error (Ages.mask age) i = Some (a <? 75)%float)
    /\ (a = neg_infinity ->
          (a <? 75)%float = true /\ nth_error (Ages.mask age) i = Some false)
    /\ (is_nan a = true ->
          (a <? 75)%float = false /\ nth_error (Ages.mask age) i = Some false).
Proof.
  intros age i a H. unfold Ages.mask.
  assert (M : nth_error (map (fun a => (a <? 75)%float && is_finite a) age) i
              = Some ((a <? 75)%float && is_finite a))
    by (rewrite nth_error_map, H; reflexivity).
  split; [apply length_map |]. rewrite M. split; [| split].
  - intros Hn. f_equal. destruct (a <? 75)%float eqn:L; [| reflexivity].
    simpl. now apply below_75_finite.
  - intros ->. split; reflexivity.
  - intros N. rewrite (nan_not_below a 75 N). split; reflexivity.
Qed.

Lemma age_mask_selects_below_75_witness :
  nth_error [nan; 78; 77; 74; 75; 74]%float 3 = Some 74%float
  /\ nth_error (Ages.mask [nan; 78; 77; 74; 75; 74]%float) 3 = Some true.
Proof.
  assert (H : nth_error [nan; 78; 77; 74; 75; 74]%float 3 = Some 74%float)
    by reflexivity.
  split; [exact H |].
  destruct (age_mask_selects_below_75 _ 3 74%float H) as [_ [S _]].
  apply S. intros E. apply (f_equal Prim2SF) in E. vm_compute in E. discriminate.
Defined.

(** *** The bad pixel and its mask *)

Lemma set_nth_some {A : Type} (l : list A) :
  forall n v l',
    BadPixel.set_nth l n v = Some l' ->
    nth_error l' n = Some v
    /\ (forall k, k <> n -> nth_error l' k = nth_error l k)
    /\ List.length l' = List.length l.
Proof.
  induction l as [| h t IH]; intros n v l' H; [discriminate |].
  destruct n as [| n]; simpl in H.
  - injection H as <-. split; [reflexivity | split; [| reflexivity]].
    intros [| k] Hk; [contradiction | reflexivity].
  - destruct (BadPixel.set_nth t n v) as [t' |] eqn:E; [| discriminate].
    injection H as <-. destruct (IH n v t' E) as [G [O L]].
    split; [exact G | split].
    + intros [| k] Hk; [reflexivity |]. simpl. apply O. congruence.
    + simpl. now rewrite L.
Qed.

Lemma set_nth_none {A : Type} (l : list A) :
  forall n v, BadPixel.set_nth l n v = None <-> nth_error l n = None.
Proof.
  induction l as [| h t IH]; intros n v.
  - destruct n; simpl; tauto.
  - destruct n as [| n]; simpl.
    + split; discriminate.
    + rewrite <- (IH n v). destruct (BadPixel.set_nth t n v); simpl; split;
        intros H; try discriminate; reflexivity.
Qed.

Lemma set_pixel_some {A : Type} (img img' : BadPixel.image A) (r c : nat) (v : A) :
  BadPixel.set_pixel img r c v = Some img' ->
  BadPixel.pixel img' r c = Some v
  /\ forall i j, (i <> r \/ j <> c) -> BadPixel.pixel img' i j = BadPixel.pixel img i j.
Proof.
  unfold BadPixel.set_pixel, BadPixel.pixel.
  destruct (nth_error img r) as [row |] eqn:R; [| discriminate].
  destruct (BadPixel.set_nth row c v) as [row' |] eqn:S; [| discriminate].
  intros H. destruct (set_nth_some _ _ _ _ H) as [G [O _]].
  destruct (set_nth_some _ _ _ _ S) as [G' [O' _]].
  split.
  - rewrite G. exact G'.
  - intros i j D. destruct (Nat.eq_dec i r) as [-> | N].
    + rewrite G, R. destruct D as [D | D]; [contradiction |]. now apply O'.
    + now rewrite (O i N).
Qed.

Lemma set_pixel_none {A : Type} (img : BadPixel.image A) (r c : nat) (v : A) :
  BadPixel.set_pixel img r c v = None <-> BadPixel.pixel img r c = None.
Proof.
  unfold BadPixel.set_pixel, BadPixel.pixel.
  destruct (nth_error img r) as [row |] eqn:R; [| tauto].
  rewrite <- (set_nth_none row c v).
  destruct (BadPixel.set_nth row c v) as [row' |]; [| tauto].
  split; [| discriminate].
  intros H. apply set_nth_none in H. congruence.
Qed.

Lemma pixel_zeros_like {A : Type} (img : BadPixel.image A) (i j : nat) :
  BadPixel.pixel (BadPixel.zeros_like img) i j
  = option_map (fun _ => false) (BadPixel.pixel img i j).
Proof.
  unfold BadPixel.pixel, BadPixel.zeros_like. rewrite nth_error_map.
  destruct (nth_error img i) as [row |]; [| reflexivity].
  simpl. now rewrite nth_error_map.
Qed.

(** X6: when the two cells run, [data2] holds 100 at the bad pixel and equals
    [data] at every other pixel, and [mask] has the shape of the image, is
    [True] at the bad pixel and [False] at every other pixel: the two
    images differ only where the mask is set. *)
Theorem mask_covers_the_bad_pixel :
  forall data d2 m,
    BadPixel.data2 data = Some d2 ->
    BadPixel.mask d2 = Some m ->
    BadPixel.pixel d2 BadPixel.y BadPixel.x = Some 100%float
    /\ BadPixel.pixel m BadPixel.y BadPixel.x = Some true
    /\ forall i j, (i <> BadPixel.y \/ j <> BadPixel.x) ->
         BadPixel.pixel d2 i j = BadPixel.pixel data i j
         /\ BadPixel.pixel m i j = option_map (fun _ => false) (BadPixel.pixel data i j).
Proof.
  unfold BadPixel.data2, BadPixel.mask. intros data d2 m D M.
  destruct (set_pixel_some _ _ _ _ _ D) as [Dv Do].
  destruct (set_pixel_some _ _ _ _ _ M) as [Mv Mo].
  split; [exact Dv | split; [exact Mv |]].
  intros i j N. split; [now apply Do |].
  rewrite (Mo i j N), pixel_zeros_like. now rewrite (Do i j N).
Qed.

Lemma mask_covers_the_bad_pixel_witness :
  let data := repeat (repeat 0%float 60) 92 in
  exists d2 m,
    BadPixel.data2 data = Some d2 /\ BadPixel.mask d2 = Some m
    /\ BadPixel.pixel d2 BadPixel.y BadPixel.x = Some 100%float
    /\ BadPixel.pixel m BadPixel.y BadPixel.x = Some true.
Proof.
  intros data.
  destruct (BadPixel.data2 data) as [d2 |] eqn:D; [| vm_compute in D; discriminate].
  destruct (BadPixel.mask d2) as [m |] eqn:M.
  - exists d2, m.
    destruct (mask_covers_the_bad_pixel data d2 m D M) as [P [Q _]].
    split; [reflexivity | split; [exact M | split; [exact P | exact Q]]].
  - exfalso. vm_compute in D. injection D as <-. vm_compute in M. discriminate.
Defined.

(** X7: the first cell raises [IndexError] exactly when the image has no pixel
    in row 91, column 59; when it runs, the mask cell runs too. *)
Theorem bad_pixel_needs_room :
  forall data,
    (BadPixel.data2 data = None <-> BadPixel.pixel data BadPixel.y BadPixel.x = None)
    /\ forall d2, BadPixel.data2 data = Some d2 -> exists m, BadPixel.mask d2 = Some m.
Proof.
  intros data. split; [apply set_pixel_none |].
  intros d2 D. unfold BadPixel.data2 in D.
  destruct (set_pixel_some _ _ _ _ _ D) as [P _].
  destruct (BadPixel.mask d2) as [m |] eqn:M; [now exists m |].
  unfold BadPixel.mask in M. apply set_pixel_none in M.
  rewrite pixel_zeros_like, P in M. discriminate.
Qed.

(** *** The arithmetic of the photometry notebook *)

Lemma zip_with_length (f : float -> float -> float) (a b : Photometry.column) :
  List.length a = List.length b ->
  List.length (Photometry.zip_with f a b) = List.length a.
Proof.
  intros H. unfold Photometry.zip_with.
  rewrite length_map, length_combine, <- H. apply Nat.min_id.
Qed.

(** X8: from columns of one table, with [n] rows each, every column the
    notebook derives has [n] rows again, so it can be stored in the table. *)
Theorem derived_columns_fit :
  forall n aperture_sum aperture_sum_err annulus_sum aper_area bkg_area log10,
    List.length aperture_sum = n ->
    List.length aperture_sum_err = n ->
    List.length annulus_sum = n ->
    (forall c, List.length (log10 c) = List.length c) ->
    List.length (Photometry.snr aperture_sum aperture_sum_err) = n
    /\ List.length (Photometry.abmag log10 aperture_sum) = n
    /\ List.length (Photometry.annulus_mean annulus_sum bkg_area) = n
    /\ List.length (Photometry.aperture_bkg
                      (Photometry.annulus_mean annulus_sum bkg_area) aper_area) = n
    /\ List.length (Photometry.aperture_sum_bkgsub
                      aperture_sum annulus_sum aper_area bkg_area) = n.
Proof.
  intros n s e a aa ba log10 Hs He Ha Hl.
  unfold Photometry.snr, Photometry.abmag, Photometry.aperture_sum_bkgsub,
    Photometry.flux_bkgsub, Photometry.aperture_bkg, Photometry.annulus_mean.
  repeat split.
  - rewrite zip_with_length; congruence.
  - now rewrite length_map, Hl.
  - now rewrite length_map.
  - now rewrite !length_map.
  - rewrite zip_with_length; [exact Hs |]. rewrite !length_map. congruence.
Qed.

Lemma derived_columns_fit_witness :
  List.length
    (Photometry.aperture_sum_bkgsub [10; 7.5] [20; 30] 2 4)%float = 2.
Proof.
  refine (proj2 (proj2 (proj2 (proj2
    (derived_columns_fit 2 [10; 7.5]%float [1; 1]%float [20; 30]%float
       2%float 4%float (fun c => c) _ _ _ _))))); intros; reflexivity.
Defined.

(** With positive finite aperture areas and an annulus sum of positive zero
    in every row, the background-subtracted flux is the column of aperture
    sums. *)
Lemma empty_annulus_changes_nothing :
  forall aperture_sum aper_area bkg_area,
    positive_finite aper_area = true ->
    positive_finite bkg_area = true ->
    Photometry.aperture_sum_bkgsub aperture_sum
      (map (fun _ => 0%float) aperture_sum) aper_area bkg_area
    = aperture_sum.
Proof.
  intros s aa ba Ha Hb.
  unfold Photometry.aperture_sum_bkgsub, Photometry.flux_bkgsub,
    Photometry.aperture_bkg, Photometry.annulus_mean, Photometry.zip_with.
  rewrite !map_map.
  induction s as [| v s IH]; [reflexivity |].
  simpl. rewrite IH. f_equal.
  rewrite (zero_div ba Hb), (zero_mul aa Ha). apply sub_zero.
Qed.

Lemma empty_annulus_changes_nothing_witness :
  positive_finite 28.274333882308138%float = true
  /\ positive_finite 392.6990816987241%float = true
  /\ (Photometry.aperture_sum_bkgsub [10; 7.5; nan] (map (fun _ => 0) [10; 7.5; nan])
        28.274333882308138 392.6990816987241 = [10; 7.5; nan])%float.
Proof.
  assert (Ha : positive_finite 28.274333882308138%float = true) by reflexivity.
  assert (Hb : positive_finite 392.6990816987241%float = true) by reflexivity.
  split; [exact Ha | split; [exact Hb |]].
  exact (empty_annulus_changes_nothing [10; 7.5; nan]%float _ _ Ha Hb).
Defined.

Lemma nth_error_zip_with (f : float -> float -> float) (a : Photometry.column) :
  forall b i x y,
    nth_error a i = Some x -> nth_error b i = Some y ->
    nth_error (Photometry.zip_with f a b) i = Some (f x y).
Proof.
  unfold Photometry.zip_with.
  induction a as [| h a IH]; intros b i x y Ha Hb.
  - destruct i; discriminate.
  - destruct b as [| k b]; [destruct i; discriminate |].
    destruct i as [| i]; simpl in *.
    + injection Ha as <-. injection Hb as <-. reflexivity.
    + now apply IH.
Qed.

Lemma neg_zero_div (b : float) : positive_finite b = true -> (-0 / b = -0)%float.
Proof.
  unfold positive_finite. intros H. apply float_eq. rewrite div_spec.
  change (Prim2SF (-0)) with (S754_zero true).
  destruct (Prim2SF b) as [[|] | [|] | | [|] m e]; try discriminate. reflexivity.
Qed.

Lemma neg_zero_mul (b : float) : positive_finite b = true -> (-0 * b = -0)%float.
Proof.
  unfold positive_finite. intros H. apply float_eq. rewrite mul_spec.
  change (Prim2SF (-0)) with (S754_zero true).
  destruct (Prim2SF b) as [[|] | [|] | | [|] m e]; try discriminate. reflexivity.
Qed.

Lemma sub_neg_zero (s : float) : s <> (-0)%float -> (s - -0 = s)%float.
Proof.
  intros H. apply float_eq. rewrite sub_spec.
  change (Prim2SF (-0)) with (S754_zero true).
  destruct (Prim2SF s) as [[|] | [|] | | [|] m e] eqn:E; try reflexivity.
  exfalso. apply H. apply float_eq. rewrite E. reflexivity.
Qed.

(** X9: with positive finite aperture areas, a row whose annulus sum is a
    zero keeps its aperture sum.  For an annulus sum of positive zero the
    background-subtracted flux is the aperture sum itself, whatever it is
    (NaN, infinite, a zero of either sign).  For an annulus sum of negative
    zero it is the aperture sum too, with one exception: an aperture sum of
    negative zero gives the positive zero. *)
Theorem zero_annulus_keeps_the_sum :
  forall aperture_sum annulus_sum aper_area bkg_area i s z,
    positive_finite aper_area = true ->
    positive_finite bkg_area = true ->
    nth_error aperture_sum i = Some s ->
    nth_error annulus_sum i = Some z ->
    exists r,
      nth_error (Photometry.aperture_sum_bkgsub
                   aperture_sum annulus_sum aper_area bkg_area) i = Some r
      /\ (z = 0%float -> r = s)
      /\ (z = (-0)%float -> s <> (-0)%float -> r = s)
      /\ (z = (-0)%float -> s = (-0)%float -> r = 0%float).
Proof.
  intros a z0 aa ba i s z Ha Hb Hs Hz.
  exists (s - z / ba * aa)%float. split.
  - unfold Photometry.aperture_sum_bkgsub, Photometry.flux_bkgsub,
      Photometry.aperture_bkg, Photometry.annulus_mean.
    apply nth_error_zip_with; [exact Hs |].
    rewrite map_map, nth_error_map, Hz. reflexivity.
  - split; [| split].
    + intros ->. rewrite (zero_div ba Hb), (zero_mul aa Ha). apply sub_zero.
    + intros -> N. rewrite (neg_zero_div ba Hb), (neg_zero_mul aa Ha).
      now apply sub_neg_zero.
    + intros -> ->. rewrite (neg_zero_div ba Hb), (neg_zero_mul aa Ha). reflexivity.
Qed.

Lemma zero_annulus_keeps_the_sum_witness :
  positive_finite 28.274333882308138%float = true
  /\ positive_finite 392.6990816987241%float = true
  /\ (nth_error [10; -0; nan] 1 = Some (-0))%float
  /\ (nth_error [0; -0; 0] 1 = Some (-0))%float
  /\ (nth_error (Photometry.aperture_sum_bkgsub [10; -0; nan] [0; -0; 0]
                   28.274333882308138 392.6990816987241) 1 = Some 0)%float.
Proof.
  assert (Ha : positive_finite 28.274333882308138%float = true) by reflexivity.
  assert (Hb : positive_finite 392.6990816987241%float = true) by reflexivity.
  assert (Hs : (nth_error [10; -0; nan] 1 = Some (-0))%float) by reflexivity.
  assert (Hz : (nth_error [0; -0; 0] 1 = Some (-0))%float) by reflexivity.
  split; [exact Ha | split; [exact Hb | split; [exact Hs | split; [exact Hz |]]]].
  destruct (zero_annulus_keeps_the_sum _ _ _ _ 1 _ _ Ha Hb Hs Hz) as [r [E [_ [_ Z]]]].
  rewrite E. f_equal. now apply Z.
Defined.



(** *** Calls of [aperture_photometry] *)

(** X11: every call of [aperture_photometry] passes the image and the
    apertures by position and, by keyword, only [method], [subpixels],
    [error], [unit], [mask] or [wcs]; [subpixels] is passed only together
    with [method='subpixel'], never with a method that ignores it. *)
Theorem photometry_calls_are_uniform :
  forall nb st args,
    In nb notebooks -> In st (all_statements nb) ->
    In args (calls "aperture_photometry" st) ->
    positional args = 2
    /\ (forall k, In k (keywords args) -> In k photometry_keywords)
    /\ (In "subpixels" (keywords args) ->
          keyword_string "method" args = Some "subpixel").
Proof.
  intros nb st args Hnb Hst Ha.
  assert (C : forallb (fun st => forallb photometry_call_ok
                                   (calls "aperture_photometry" st))
                (all_statements nb) = true)
    by (destruct Hnb as [<- | [<- | []]]; vm_compute; reflexivity).
  pose proof (forallb_In _ _ args (forallb_In _ _ st C Hst) Ha) as K.
  unfold photometry_call_ok in K.
  apply andb_true_iff in K. destruct K as [K S].
  apply andb_true_iff in K. destruct K as [P W].
  split; [now apply Nat.eqb_eq | split].
  - intros k Hk. apply mem_In. exact (forallb_In _ _ k W Hk).
  - intros Hs. apply mem_In in Hs. rewrite Hs in S. simpl in S.
    now apply same_format_eq.
Qed.

Lemma photometry_calls_are_uniform_witness :
  let st := [NAME "phot"; OP "="; NAME "aperture_photometry"; OP "(";
             NAME "data"; OP ","; NAME "aperture"; OP ",";
             NAME "method"; OP "="; STRING "subpixel"; OP ",";
             NAME "subpixels"; OP "="; NUMBER "5"; OP ")"] in
  let args := [NAME "data"; OP ","; NAME "aperture"; OP ",";
               NAME "method"; OP "="; STRING "subpixel"; OP ",";
               NAME "subpixels"; OP "="; NUMBER "5"] in
  In part_000 notebooks /\ In st (all_statements part_000)
  /\ In args (calls "aperture_photometry" st)
  /\ In "subpixels" (keywords args)
  /\ keyword_string "method" args = Some "subpixel".
Proof.
  intros st args.
  assert (Hnb : In part_000 notebooks) by (right; left; reflexivity).
  assert (Hst : In st (all_statements part_000))
    by (apply (found_In (fun s => mem "subpixels" (names_of s))); vm_compute; reflexivity).
  assert (Ha : In args (calls "aperture_photometry" st)) by (vm_compute; find_in).
  assert (Hk : In "subpixels" (keywords args)) by (vm_compute; find_in).
  split; [exact Hnb | split; [exact Hst | split; [exact Ha | split; [exact Hk |]]]].
  exact (proj2 (proj2 (photometry_calls_are_uniform part_000 st args Hnb Hst Ha)) Hk).
Defined.
